(** * yf_bridge: the value normalizer and the request envelope

    A shallow embedding of [src/python/yf_bridge.py]: the functions
    [_to_iso], [_serialize_value], [_read_payload], [_ok], [_err] and
    [main], with the Python values they inspect, the writes to standard
    output and the exceptions that escape them made explicit.

    Values are finite trees: the interpreter's recursion limit and cyclic
    objects are outside the model.  The router [_dispatch] with the provider
    behind it, [json.loads] and [traceback.format_exc] are parameters of a
    run. *)

From Stdlib Require Import List String Ascii ZArith Bool Lia DecimalString.
Import ListNotations.
Local Open Scope string_scope.
Local Open Scope Z_scope.

(** ** Python values *)

(** A Python [float].  Only the class of the value matters to the bridge:
    [math.isnan] and the JSON encoder's finiteness test.  A finite double is
    named by a decimal [m * 10^e] whose nearest double it is. *)
Inductive pyfloat : Set :=
| FNaN
| FInf (negative : bool)
| FFinite (m e : Z).

(** [math.isnan] *)
Definition isnan (f : pyfloat) : bool :=
  match f with FNaN => true | _ => false end.

(** [math.isfinite] *)
Definition isfinite (f : pyfloat) : bool :=
  match f with FFinite _ _ => true | _ => false end.

(** A [pd.Timestamp]: the calendar date, and the time of day together with
    its fraction and UTC offset when it has them.  [isoformat(sep)] joins the
    two with [sep]; [isoformat()] uses "T" and [str()] uses a blank. *)
Record timestamp : Set := Timestamp { ts_date : string; ts_time : string }.

Definition isoformat_sep (sep : string) (t : timestamp) : string :=
  ts_date t ++ sep ++ ts_time t.

Definition isoformat (t : timestamp) : string := isoformat_sep "T" t.
Definition timestamp_str (t : timestamp) : string := isoformat_sep " " t.

(** Hashable objects used as dictionary keys, column labels and series
    names.  [KOther cls text] is any other hashable object (a tuple of a
    MultiIndex, a date, ...) of class [cls] whose [str()] is [text]. *)
Inductive pykey : Set :=
| KNone
| KBool (b : bool)
| KInt (z : Z)
| KStr (s : string)
| KTimestamp (t : timestamp)
| KPeriod (label : string)
| KOther (cls text : string).

Definition str_of_Z (z : Z) : string := NilZero.string_of_int (Z.to_int z).

(** The builtin [str()] on keys. *)
Definition key_str (k : pykey) : string :=
  match k with
  | KNone => "None"
  | KBool true => "True"
  | KBool false => "False"
  | KInt z => str_of_Z z
  | KStr s => s
  | KTimestamp t => timestamp_str t
  | KPeriod label => label
  | KOther _ text => text
  end.

(** The values the normalizer meets.  A [PDataFrame] is given by what the
    code reads from it: [df.columns], [df.index.tolist()] and
    [df.to_numpy().tolist()]; a [PSeries] by [series.name] ([KNone] when it
    has none), [series.index.tolist()] and [series.tolist()]; a [PNdarray] by
    [value.tolist()]; a [PNpGeneric] by [value.item()].  [PKeyed cls keys]
    is an object, not a literal [dict], that has [keys] and [__getitem__]:
    [keys] is [None] when calling [keys()] raises, otherwise the keys in
    enumeration order, each with the value [value[k]] or [None] when that
    lookup raises.  [POpaque cls] is any other object. *)
Unset Elimination Schemes.
Inductive pyval : Set :=
| PNone
| PBool (b : bool)
| PInt (z : Z)
| PFloat (f : pyfloat)
| PStr (s : string)
| PList (l : list pyval)
| PTuple (l : list pyval)
| PDict (d : list (pykey * pyval))
| PTimestamp (t : timestamp)
| PPeriod (label : string)
| PNpGeneric (item : pyval)
| PNdarray (l : list pyval)
| PDataFrame (columns : list pykey) (index : list pyval)
             (cells : list (list pyval))
| PSeries (name : pykey) (index : list pyval) (data : list pyval)
| PKeyed (cls : string) (keys : option (list (pykey * option pyval)))
| POpaque (cls : string).
Set Elimination Schemes.

(** *** Dictionaries

    A [dict] keeps insertion order and assigning to a key that is present
    replaces its value in place. *)
Fixpoint dict_set {V : Type} (k : string) (v : V) (d : list (string * V))
  : list (string * V) :=
  match d with
  | [] => [(k, v)]
  | (k', v') :: d' =>
      if String.eqb k' k then (k', v) :: d' else (k', v') :: dict_set k v d'
  end.

(** The dictionary a comprehension builds from its items, left to right. *)
Definition dict_of_items {V : Type} (items : list (string * V))
  : list (string * V) :=
  fold_left (fun d kv => dict_set (fst kv) (snd kv) d) items [].

Definition str_items (d : list (string * pyval)) : list (pykey * pyval) :=
  map (fun kv => (KStr (fst kv), snd kv)) d.

(** A literal [dict] whose keys are the given strings, in order. *)
Definition PObject (d : list (string * pyval)) : pyval := PDict (str_items d).

(** ** The normalizer *)

(** [_to_iso] *)
Definition _to_iso (value : pyval) : pyval :=
  match value with
  | PTimestamp t => PStr (isoformat t)
  | PPeriod label => PStr label
  | _ => value
  end.

(** [pd.notnull] on a cell: [None], NaN, [pd.NaT] and [pd.NA] are the
    missing values; the last two are objects of the classes [NaTType] and
    [NAType]. *)
Definition notnull (v : pyval) : bool :=
  match v with
  | PNone => false
  | PFloat f => negb (isnan f)
  | POpaque cls => negb (String.eqb cls "NaTType" || String.eqb cls "NAType")
  | _ => true
  end.

(** [x.where(pd.notnull(x), None)] on the cells of a frame or a series. *)
Definition where_notnull (v : pyval) : pyval := if notnull v then v else PNone.

(** The items of [{str(k): f(value[k]) for k in value.keys()}], or [None]
    when a lookup raises on the way. *)
Fixpoint keyed_items (f : pyval -> pyval) (es : list (pykey * option pyval))
  : option (list (string * pyval)) :=
  match es with
  | [] => Some []
  | (_, None) :: _ => None
  | (k, Some v) :: es' =>
      match keyed_items f es' with
      | Some r => Some ((key_str k, f v) :: r)
      | None => None
      end
  end.

(** [_serialize_value].  The cells of a frame or a series go through
    [where_notnull] first; the recursion is written on the cell itself, with
    the value of [_serialize_value None] in place of the call on the
    replaced cell ([serialize_cell_where] below says they agree). *)
Fixpoint _serialize_value (value : pyval) : pyval :=
  match value with
  | PDataFrame columns index cells =>
      PObject
        [ ("__type__", PStr "dataframe");
          ("columns", PList (map (fun c => PStr (key_str c)) columns));
          ("index", PList (map _to_iso index));
          ("data",
           PList (map (fun row =>
                         PList (map (fun v => if notnull v
                                              then _serialize_value v
                                              else PNone)
                                    row))
                      cells)) ]
  | PSeries name index data =>
      PObject
        [ ("__type__", PStr "series");
          ("name", match name with KNone => PNone | _ => PStr (key_str name) end);
          ("index", PList (map _to_iso index));
          ("data",
           PList (map (fun v => if notnull v then _serialize_value v else PNone)
                      data)) ]
  | PDict d =>
      PObject
        (dict_of_items
           (map (fun kv => (key_str (fst kv), _serialize_value (snd kv))) d))
  | PKeyed cls keys =>
      match keys with
      | Some es =>
          match
            (fix items (es : list (pykey * option pyval))
               : option (list (string * pyval)) :=
               match es with
               | [] => Some []
               | (_, None) :: _ => None
               | (k, Some v) :: es' =>
                   match items es' with
                   | Some r => Some ((key_str k, _serialize_value v) :: r)
                   | None => None
                   end
               end) es
          with
          | Some r => PObject (dict_of_items r)
          | None => value
          end
      | None => value
      end
  | PNpGeneric val =>
      match val with
      | PFloat f => if isnan f then PNone else val
      | _ => val
      end
  | PNdarray l => PList (map _serialize_value l)
  | PList l => PList (map _serialize_value l)
  | PTuple l => PList (map _serialize_value l)
  | PTimestamp _ | PPeriod _ => _to_iso value
  | PFloat f => if isnan f then PNone else value
  | _ => value
  end.

Definition serialize_cell (v : pyval) : pyval :=
  if notnull v then _serialize_value v else PNone.

(** ** Exceptions and the wire format *)

(** A raised exception: its class and the text [str(exc)] gives. *)
Record pyexn : Set := Exn { exn_class : string; exn_str : string }.

(** A JSON document as written to the wire.  [JNumber f] with [f] not
    finite stands for the tokens [NaN], [Infinity] and [-Infinity]. *)
Unset Elimination Schemes.
Inductive json : Set :=
| JNull
| JBool (b : bool)
| JInt (z : Z)
| JNumber (f : pyfloat)
| JString (s : string)
| JArray (l : list json)
| JObject (members : list (string * json)).
Set Elimination Schemes.

(** No [NaN] or [Infinity] token anywhere in the document. *)
Fixpoint json_finite (j : json) : bool :=
  match j with
  | JNumber f => isfinite f
  | JArray l => forallb json_finite l
  | JObject ms => forallb (fun m => json_finite (snd m)) ms
  | _ => true
  end.

(** The class name in the encoder's [TypeError]. *)
Definition type_name (v : pyval) : string :=
  match v with
  | PNone => "NoneType" | PBool _ => "bool" | PInt _ => "int"
  | PFloat _ => "float" | PStr _ => "str" | PList _ => "list"
  | PTuple _ => "tuple" | PDict _ => "dict"
  | PTimestamp _ => "Timestamp" | PPeriod _ => "Period"
  | PNpGeneric _ => "generic" | PNdarray _ => "ndarray"
  | PDataFrame _ _ _ => "DataFrame" | PSeries _ _ _ => "Series"
  | PKeyed cls _ => cls | POpaque cls => cls
  end.

Definition key_type_name (k : pykey) : string :=
  match k with
  | KNone => "NoneType" | KBool _ => "bool" | KInt _ => "int" | KStr _ => "str"
  | KTimestamp _ => "Timestamp" | KPeriod _ => "Period" | KOther cls _ => cls
  end.

Definition not_serializable (cls : string) : pyexn :=
  Exn "TypeError" ("Object of type " ++ cls ++ " is not JSON serializable").

Definition bad_key (cls : string) : pyexn :=
  Exn "TypeError"
      ("keys must be str, int, float, bool or None, not " ++ cls).

(** The interpreter refuses to convert an [int] of more than 4300 digits
    to text. *)
Definition int_str_ok (z : Z) : bool := Z.abs z <? 10 ^ 4300.
Arguments int_str_ok : simpl never.

Definition int_limit : pyexn :=
  Exn "ValueError" "Exceeds the limit (4300) for integer string conversion".

Definition out_of_range : pyexn :=
  Exn "ValueError" "Out of range float values are not JSON compliant".

(** The member name the encoder writes for a dictionary key. *)
Definition json_key (k : pykey) : pyexn + string :=
  match k with
  | KStr s => inr s
  | KInt z => if int_str_ok z then inr (str_of_Z z) else inl int_limit
  | KBool true => inr "true"
  | KBool false => inr "false"
  | KNone => inr "null"
  | _ => inl (bad_key (key_type_name k))
  end.

(** [json.dumps(value, allow_nan=...)], up to the text of the tokens: the
    document it writes, or the exception it raises.  Lists and tuples are
    arrays, dictionaries are objects, anything that is not a JSON type is a
    [TypeError], a float that is not finite is a [ValueError] unless
    [allow_nan], and so is an integer beyond the conversion limit. *)
Fixpoint json_dumps (allow_nan : bool) (v : pyval) : pyexn + json :=
  let elements :=
    fix elements (l : list pyval) : pyexn + list json :=
      match l with
      | [] => inr []
      | x :: l' =>
          match json_dumps allow_nan x with
          | inl e => inl e
          | inr j =>
              match elements l' with
              | inl e => inl e
              | inr js => inr (j :: js)
              end
          end
      end in
  match v with
  | PNone => inr JNull
  | PBool b => inr (JBool b)
  | PInt z => if int_str_ok z then inr (JInt z) else inl int_limit
  | PFloat f =>
      if isfinite f || allow_nan then inr (JNumber f) else inl out_of_range
  | PStr s => inr (JString s)
  | PList l | PTuple l =>
      match elements l with inl e => inl e | inr js => inr (JArray js) end
  | PDict d =>
      match
        (fix members (d : list (pykey * pyval)) : pyexn + list (string * json) :=
           match d with
           | [] => inr []
           | (k, x) :: d' =>
               match json_key k with
               | inl e => inl e
               | inr name =>
                   match json_dumps allow_nan x with
                   | inl e => inl e
                   | inr j =>
                       match members d' with
                       | inl e => inl e
                       | inr ms => inr ((name, j) :: ms)
                       end
                   end
               end
           end) d
      with
      | inl e => inl e
      | inr ms => inr (JObject ms)
      end
  | _ => inl (not_serializable (type_name v))
  end.

(** ** The process: standard output and escaping exceptions *)

(** A computation that may write documents to standard output and may
    raise: from the documents written so far to a result or an exception,
    and the documents written then. *)
Definition IO (A : Type) : Type := list json -> (pyexn + A) * list json.

Definition ret {A} (a : A) : IO A := fun out => (inr a, out).
Definition raise {A} (e : pyexn) : IO A := fun out => (inl e, out).
Definition lift {A} (r : pyexn + A) : IO A := fun out => (r, out).

Definition bind {A B} (m : IO A) (k : A -> IO B) : IO B :=
  fun out =>
    match m out with
    | (inr a, out') => k a out'
    | (inl e, out') => (inl e, out')
    end.

(** The exceptions [except Exception] catches: all but those of the
    classes that derive from [BaseException] only. *)
Definition catchable (e : pyexn) : bool :=
  negb (existsb (String.eqb (exn_class e))
          ["BaseException"; "KeyboardInterrupt"; "SystemExit"; "GeneratorExit"]).

(** [try: body  except Exception as exc: handler(exc)] *)
Definition try_except {A} (body : IO A) (handler : pyexn -> IO A) : IO A :=
  fun out =>
    match body out with
    | (inr a, out') => (inr a, out')
    | (inl e, out') => if catchable e then handler e out' else (inl e, out')
    end.

(** [sys.stdout.write(doc)].  The stream is taken to encode every
    document: a [string] holds code points below 256, all of which a UTF-8
    stream encodes.  Text with lone surrogates, on which the write raises,
    is outside this type of text. *)
Definition stdout_write (doc : json) : IO unit := fun out => (inr tt, (out ++ [doc])%list).

Notation "x <- m ;; k" := (bind m (fun x => k))
  (at level 61, m at next level, right associativity).

(** What the process is started with: the import guard's [_IMPORT_ERROR],
    the text on standard input, and the three collaborators that are not
    part of the bridge: [json.loads], the action router [_dispatch] with the
    provider behind it, and [traceback.format_exc]. *)
Record Env : Type := {
  import_error : option string;
  stdin : string;
  json_loads : string -> pyexn + pyval;
  _dispatch : pyval -> pyval -> pyexn + pyval;
  format_exc : pyexn -> string
}.

(** [str.isspace] on one character; a [string] is read as a sequence of
    code points below 256. *)
Definition isspace (c : ascii) : bool :=
  let n := nat_of_ascii c in
  ((9 <=? n) && (n <=? 13) || (28 <=? n) && (n <=? 32)
   || (n =? 133) || (n =? 160))%nat.

Fixpoint lstrip_chars (l : list ascii) : list ascii :=
  match l with
  | c :: l' => if isspace c then lstrip_chars l' else l
  | [] => []
  end.

(** [str.strip()] *)
Definition strip (s : string) : string :=
  string_of_list_ascii
    (rev (lstrip_chars (rev (lstrip_chars (list_ascii_of_string s))))).

(** Truth value of an object, as [not x] and [if x:] test it. *)
Definition float_is_zero (f : pyfloat) : bool :=
  match f with
  | FFinite m e =>
      if 0 <=? e then m =? 0 else Z.abs m * 2 ^ 1075 <=? 10 ^ (- e)
  | _ => false
  end.

Definition truthy (v : pyval) : bool :=
  match v with
  | PNone => false
  | PBool b => b
  | PInt z => negb (z =? 0)
  | PFloat f => negb (float_is_zero f)
  | PStr s => negb (String.eqb s EmptyString)
  | PList [] | PTuple [] | PDict [] => false
  | _ => true
  end.

Definition str_truthy (s : option string) : bool :=
  match s with
  | Some s => negb (String.eqb s EmptyString)
  | None => false
  end.

(** Lookup of a [str] key in a dictionary. *)
Fixpoint dict_lookup (key : string) (d : list (pykey * pyval)) : option pyval :=
  match d with
  | [] => None
  | (KStr s, v) :: d' => if String.eqb s key then Some v else dict_lookup key d'
  | _ :: d' => dict_lookup key d'
  end.

(** [payload.get(key, default)]: only a [dict] has [get]. *)
Definition py_get (payload : pyval) (key : string) (default : pyval)
  : pyexn + pyval :=
  match payload with
  | PDict d =>
      inr match dict_lookup key d with Some v => v | None => default end
  | _ =>
      inl (Exn "AttributeError"
               ("'" ++ type_name payload ++ "' object has no attribute 'get'"))
  end.

(** One run of the process: what it wrote, and the exception that ended
    it if one escaped [main]. *)
Record outcome : Type := { stdout : list json; escaped : option pyexn }.

Section Bridge.
Variable w : Env.

(** [_read_payload] *)
Definition _read_payload : IO pyval :=
  let raw := stdin w in
  if negb (truthy (PStr (strip raw))) then ret (PDict [])
  else lift (json_loads w raw).

(** [_ok].  When the import guard failed, [pd] is [None] and the first
    test of [_serialize_value] raises. *)
Definition _ok (result : pyval) : IO unit :=
  match import_error w with
  | Some _ =>
      raise (Exn "AttributeError"
                 "'NoneType' object has no attribute 'DataFrame'")
  | None =>
      let payload :=
        PObject [("ok", PBool true); ("result", _serialize_value result)] in
      doc <- lift (json_dumps false payload) ;;
      stdout_write doc
  end.

(** [_err] *)
Definition _err (message : string) (details : option string) : IO unit :=
  let payload := [("ok", PBool false); ("error", PStr message)] in
  let payload :=
    match details with
    | Some d => if str_truthy details
                then dict_set "details" (PStr d) payload else payload
    | None => payload
    end in
  doc <- lift (json_dumps true (PObject payload)) ;;
  stdout_write doc.

(** [main] *)
Definition main : IO unit :=
  if str_truthy (import_error w) then
    _err "Missing Python dependencies for yfinance bridge."
         (Some "Install with: pip install -r mcp/python/requirements.txt")
  else
    payload <- _read_payload ;;
    action <- lift (py_get payload "action" PNone) ;;
    args <- lift (py_get payload "args" (PDict [])) ;;
    if negb (truthy action) then _err "Missing action in payload" None
    else
      try_except
        (result <- lift (_dispatch w action args) ;;
         _ok result)
        (fun exc =>
           let detail := format_exc w exc in
           _err (exn_str exc) (Some detail)).

(** The process, started with nothing written yet. *)
Definition run : outcome :=
  match main [] with
  | (inr _, out) => {| stdout := out; escaped := None |}
  | (inl e, out) => {| stdout := out; escaped := Some e |}
  end.
End Bridge.

(** The two envelope documents. *)
Definition failure_envelope (message : string) (details : option string) : json :=
  JObject
    ([("ok", JBool false); ("error", JString message)]
       ++ match details with Some d => [("details", JString d)] | None => [] end)%list.

Definition success_envelope (result : json) : json :=
  JObject [("ok", JBool true); ("result", result)].

(** The member of a dictionary-valued result under a [str] key. *)
Definition member (key : string) (v : pyval) : option pyval :=
  match v with PDict d => dict_lookup key d | _ => None end.

(** A float that is not finite somewhere in the JSON-shaped part of a
    value: in a list, a tuple or under a dictionary key. *)
Fixpoint has_nonfinite (v : pyval) : bool :=
  match v with
  | PFloat f => negb (isfinite f)
  | PList l | PTuple l => existsb has_nonfinite l
  | PDict d => existsb (fun kv => has_nonfinite (snd kv)) d
  | _ => false
  end.

(** ** Induction over values

    The principle that goes through the lists, rows and entries a value
    holds. *)
Section PyvalInd.
Variable P : pyval -> Prop.
Hypothesis HNone : P PNone.
Hypothesis HBool : forall b, P (PBool b).
Hypothesis HInt : forall z, P (PInt z).
Hypothesis HFloat : forall f, P (PFloat f).
Hypothesis HStr : forall s, P (PStr s).
Hypothesis HList : forall l, Forall P l -> P (PList l).
Hypothesis HTuple : forall l, Forall P l -> P (PTuple l).
Hypothesis HDict : forall d, Forall (fun kv => P (snd kv)) d -> P (PDict d).
Hypothesis HTimestamp : forall t, P (PTimestamp t).
Hypothesis HPeriod : forall p, P (PPeriod p).
Hypothesis HNpGeneric : forall item, P item -> P (PNpGeneric item).
Hypothesis HNdarray : forall l, Forall P l -> P (PNdarray l).
Hypothesis HDataFrame : forall columns index cells,
    Forall P index -> Forall (Forall P) cells ->
    P (PDataFrame columns index cells).
Hypothesis HSeries : forall name index data,
    Forall P index -> Forall P data -> P (PSeries name index data).
Hypothesis HKeyed : forall cls keys,
    match keys with
    | Some es =>
        Forall (fun e => match snd e with Some v => P v | None => True end) es
    | None => True
    end -> P (PKeyed cls keys).
Hypothesis HOpaque : forall cls, P (POpaque cls).

Fixpoint pyval_ind (v : pyval) : P v :=
  let all :=
    fix all (l : list pyval) : Forall P l :=
      match l with
      | [] => Forall_nil _
      | x :: l' => Forall_cons x (pyval_ind x) (all l')
      end in
  match v with
  | PNone => HNone
  | PBool b => HBool b
  | PInt z => HInt z
  | PFloat f => HFloat f
  | PStr s => HStr s
  | PList l => HList l (all l)
  | PTuple l => HTuple l (all l)
  | PDict d =>
      HDict d
        ((fix items (d : list (pykey * pyval))
            : Forall (fun kv => P (snd kv)) d :=
            match d with
            | [] => Forall_nil _
            | kv :: d' => Forall_cons kv (pyval_ind (snd kv)) (items d')
            end) d)
  | PTimestamp t => HTimestamp t
  | PPeriod p => HPeriod p
  | PNpGeneric item => HNpGeneric item (pyval_ind item)
  | PNdarray l => HNdarray l (all l)
  | PDataFrame columns index cells =>
      HDataFrame columns index cells (all index)
        ((fix rows (c : list (list pyval)) : Forall (Forall P) c :=
            match c with
            | [] => Forall_nil _
            | r :: c' => Forall_cons r (all r) (rows c')
            end) cells)
  | PSeries name index data => HSeries name index data (all index) (all data)
  | PKeyed cls keys =>
      HKeyed cls keys
        match keys with
        | Some es =>
            (fix entries (es : list (pykey * option pyval))
               : Forall (fun e => match snd e with
                                  | Some v => P v
                                  | None => True
                                  end) es :=
               match es with
               | [] => Forall_nil _
               | e :: es' =>
                   Forall_cons e
                     (match snd e as o
                            return match o with Some v => P v | None => True end
                      with
                      | Some v => pyval_ind v
                      | None => I
                      end)
                     (entries es')
               end) es
        | None => I
        end
  | POpaque cls => HOpaque cls
  end.
End PyvalInd.

(** ** Definitions used in the statements *)

(** The two loops of [json_dumps], on their own. *)
Fixpoint dumps_elements (allow_nan : bool) (l : list pyval) : pyexn + list json :=
  match l with
  | [] => inr []
  | x :: l' =>
      match json_dumps allow_nan x with
      | inl e => inl e
      | inr j =>
          match dumps_elements allow_nan l' with
          | inl e => inl e
          | inr js => inr (j :: js)
          end
      end
  end.

Fixpoint dumps_members (allow_nan : bool) (d : list (pykey * pyval))
  : pyexn + list (string * json) :=
  match d with
  | [] => inr []
  | (k, x) :: d' =>
      match json_key k with
      | inl e => inl e
      | inr name =>
          match json_dumps allow_nan x with
          | inl e => inl e
          | inr j =>
              match dumps_members allow_nan d' with
              | inl e => inl e
              | inr ms => inr ((name, j) :: ms)
              end
          end
      end
  end.

(** The [details] that [_err] keeps: a text that is not empty. *)
Definition kept_details (details : option string) : option string :=
  if str_truthy details then details else None.

(** The request a run gets as far as dispatching: the import guard passed,
    the input was read as a dictionary and its [action] is not falsy. *)
Definition dispatched (w : Env) (action args : pyval) : Prop :=
  str_truthy (import_error w) = false /\
  exists d,
    _read_payload w [] = (inr (PDict d), []) /\
    action = match dict_lookup "action" d with Some a => a | None => PNone end /\
    args = match dict_lookup "args" d with Some a => a | None => PDict [] end /\
    truthy action = true.

(** ** Example inputs *)

Definition dquote : string := String (ascii_of_nat 34) EmptyString.

(** A decoder whose answer is known at one text; any other text is taken
    as malformed. *)
Definition decoder_at (text : string) (r : pyexn + pyval)
  : string -> pyexn + pyval :=
  fun raw =>
    if String.eqb raw text then r
    else inl (Exn "JSONDecodeError" "Expecting value: line 1 column 1 (char 0)").

Definition traceback_of (e : pyexn) : string :=
  "Traceback (most recent call last): " ++ exn_class e ++ ": " ++ exn_str e.

(** The request [{"action": "ticker_info"}]. *)
Definition ticker_info_text : string :=
  "{" ++ dquote ++ "action" ++ dquote ++ ": "
      ++ dquote ++ "ticker_info" ++ dquote ++ "}".

Definition ticker_info_request : pyval :=
  PDict [(KStr "action", PStr "ticker_info")].

(** A provider answer holding an infinite float under a key. *)
Definition env_infinite_answer : Env :=
  {| import_error := None;
     stdin := ticker_info_text;
     json_loads := decoder_at ticker_info_text (inr ticker_info_request);
     _dispatch := fun _ _ =>
       inr (PDict [(KStr "symbol", PStr "X"); (KStr "pe", PFloat (FInf false))]);
     format_exc := traceback_of |}.

(** The request of scenario E: the router refuses the empty arguments. *)
Definition env_ticker_required : Env :=
  {| import_error := None;
     stdin := ticker_info_text;
     json_loads := decoder_at ticker_info_text (inr ticker_info_request);
     _dispatch := fun _ _ => inl (Exn "ValueError" "ticker is required");
     format_exc := traceback_of |}.

(** The input [{], which is not a JSON document. *)
Definition env_malformed : Env :=
  {| import_error := None;
     stdin := "{";
     json_loads :=
       decoder_at "{"
         (inl (Exn "JSONDecodeError"
                   "Expecting property name enclosed in double quotes: line 1 column 2 (char 1)"));
     _dispatch := fun _ _ => inr PNone;
     format_exc := traceback_of |}.

(** The input [[]], a JSON document that is not an object. *)
Definition env_array : Env :=
  {| import_error := None;
     stdin := "[]";
     json_loads := decoder_at "[]" (inr (PList []));
     _dispatch := fun _ _ => inr PNone;
     format_exc := traceback_of |}.

(** An object whose first member is a boolean [ok]. *)
Definition is_envelope (doc : json) : Prop :=
  exists b rest, doc = JObject (("ok", JBool b) :: rest).

Definition frame_columns (columns : list pykey) : pyval :=
  PList (map (fun c => PStr (key_str c)) columns).

Definition frame_data (cells : list (list pyval)) : pyval :=
  PList (map (fun row => PList (map serialize_cell row)) cells).

Definition series_name (name : pykey) : pyval :=
  match name with KNone => PNone | _ => PStr (key_str name) end.

(** The names of the members of a dictionary, in order. *)
Definition member_names (v : pyval) : list string :=
  match v with PDict d => map (fun kv => key_str (fst kv)) d | _ => [] end.

Definition new_year : timestamp := Timestamp "2024-01-01" "00:00:00+00:00".

(** A frame with one column labelled by a timestamp. *)
Definition frame_by_date : pyval :=
  PDataFrame [KTimestamp new_year] [PStr "TotalRevenue"] [[PInt 1]].

(** The frame of scenario B: two columns, two rows, one missing cell. *)
Definition frame_two_rows : pyval :=
  PDataFrame [KStr "date"; KStr "value"] [PInt 0; PInt 1]
    [[PStr "2024-01-01"; PFloat (FFinite 10 (-1))];
     [PStr "2024-01-02"; PFloat FNaN]].



Definition with_router (w : Env) (router : pyval -> pyval -> pyexn + pyval) : Env :=
  {| import_error := import_error w; stdin := stdin w;
     json_loads := json_loads w; _dispatch := router;
     format_exc := format_exc w |}.

Definition with_decoder (w : Env) (decoder : string -> pyexn + pyval) : Env :=
  {| import_error := import_error w; stdin := stdin w;
     json_loads := decoder; _dispatch := _dispatch w;
     format_exc := format_exc w |}.

Definition missing_action : outcome :=
  {| stdout := [failure_envelope "Missing action in payload" None];
     escaped := None |}.

(** The input [{}]. *)
Definition env_empty_object : Env :=
  {| import_error := None;
     stdin := "{}";
     json_loads := decoder_at "{}" (inr (PDict []));
     _dispatch := fun _ _ => inl (Exn "RuntimeError" "router was called");
     format_exc := traceback_of |}.

(** An input of a blank, a line feed and a tab, with a decoder that
    refuses everything. *)
Definition env_blank : Env :=
  {| import_error := None;
     stdin := String (ascii_of_nat 32)
                (String (ascii_of_nat 10) (String (ascii_of_nat 9) EmptyString));
     json_loads := fun _ => inl (Exn "JSONDecodeError" "decoder was called");
     _dispatch := fun _ _ => inl (Exn "RuntimeError" "router was called");
     format_exc := traceback_of |}.

(** ** The action router

    The handlers and [_dispatch].  The provider library is a parameter:
    every call into [yfinance] is a field of [Provider], returning a value
    or the exception it raises.  The arguments of a request come from
    [json.loads]: [None], booleans, integers, floats, strings, lists and
    dictionaries with string keys.  [bridge], further down, is the run whose
    [_dispatch] field is this router. *)
Module Router.

(** Keyword arguments, in the order the dictionary holds them. *)
Definition kwargs : Type := list (pykey * pyval).

(** An object of the provider, through the attributes the bridge reads. *)
Definition pyobj : Type := string -> pyexn + pyval.

(** Sequencing of steps that may raise. *)
Definition and_then {A B} (m : pyexn + A) (k : A -> pyexn + B) : pyexn + B :=
  match m with
  | inl e => inl e
  | inr a => k a
  end.

Notation "x <-- m ;; k" := (and_then m (fun x => k))
  (at level 61, m at next level, right associativity).

Definition value_error (msg : string) : pyexn := Exn "ValueError" msg.

(** [v is None] *)
Definition is_none (v : pyval) : bool :=
  match v with PNone => true | _ => false end.

(** [v == s] for a string literal [s] *)
Definition eq_str (v : pyval) (s : string) : bool :=
  match v with PStr s' => String.eqb s' s | _ => false end.

(** [isinstance(v, dict)] *)
Definition is_dict (v : pyval) : bool :=
  match v with PDict _ => true | _ => false end.

(** [k != name] for a dictionary key [k] *)
Definition key_is (name : string) (k : pykey) : bool :=
  match k with KStr s => String.eqb s name | _ => false end.

(** [name in d] *)
Definition has_key (name : string) (v : pyval) : bool :=
  match v with
  | PDict d => existsb (fun kv => key_is name (fst kv)) d
  | _ => false
  end.

(** [args.items()], once [args.get] has shown [args] to be a dictionary. *)
Definition items (args : pyval) : kwargs :=
  match args with PDict d => d | _ => [] end.

(** [{k: v for k, v in args.items() if k != name and v is not None}] *)
Definition kwargs_without (name : string) (args : pyval) : kwargs :=
  filter (fun kv => negb (key_is name (fst kv)) && negb (is_none (snd kv)))
         (items args).

(** The loop [value = args.get(key); if value is not None: kwargs[key] = value]
    over the given names; the names are distinct. *)
Fixpoint kwargs_only (names : list string) (args : pyval) : kwargs :=
  match names with
  | [] => []
  | name :: names' =>
      match dict_lookup name (items args) with
      | Some v => if is_none v then kwargs_only names' args
                  else (KStr name, v) :: kwargs_only names' args
      | None => kwargs_only names' args
      end
  end.

(** The keyword arguments [name=args.get(name)] of a call, [None] included. *)
Definition kwargs_get (names : list string) (args : pyval) : kwargs :=
  map (fun name =>
         (KStr name,
          match dict_lookup name (items args) with Some v => v | None => PNone end))
      names.

(** A dictionary key as a value, as iterating over a dictionary gives it. *)
Definition key_value (k : pykey) : pyval :=
  match k with
  | KNone => PNone
  | KBool b => PBool b
  | KInt z => PInt z
  | KStr s => PStr s
  | KTimestamp t => PTimestamp t
  | KPeriod p => PPeriod p
  | KOther cls _ => POpaque cls
  end.

Fixpoint chars (s : string) : list pyval :=
  match s with
  | EmptyString => []
  | String c s' => PStr (String c EmptyString) :: chars s'
  end.

(** [for x in v] on a decoded value: the elements of a list, the characters
    of a string, the keys of a dictionary; the other decoded values are not
    iterable. *)
Definition py_iter (v : pyval) : pyexn + list pyval :=
  match v with
  | PList l | PTuple l | PNdarray l => inr l
  | PStr s => inr (chars s)
  | PDict d => inr (map (fun kv => key_value (fst kv)) d)
  | _ => inl (Exn "TypeError"
                  ("'" ++ type_name v ++ "' object is not iterable"))
  end.

(** The calls into the provider library.  [Q] is the class of query
    objects.  A constructor that the bridge calls before it validates
    further arguments returns the object it builds: a lookup as the function
    from a kind and an optional count to the answer, a calendar as the
    function from a method name and its keyword arguments to the answer.
    [builtin_str] is [str()] on the values whose text the bridge does not
    inspect. *)
Record Provider (Q : Type) : Type := {
  builtin_str : pyval -> string;
  yf_download : pyval -> kwargs -> pyexn + pyval;
  yf_Ticker_call : pyval -> string -> kwargs -> pyexn + pyval;
  yf_Tickers_call : pyval -> string -> kwargs -> pyexn + pyval;
  yf_Ticker_attr : pyval -> string -> pyexn + pyval;
  yf_option_chain : pyval -> pyval -> pyval -> pyexn + pyobj;
  yf_Search : pyval -> kwargs -> pyexn + pyobj;
  yf_Lookup : pyval -> pyexn + (string -> option pyval -> pyexn + pyval);
  yf_Market : pyval -> pyexn + pyobj;
  yf_Sector : pyval -> pyexn + pyobj;
  yf_Industry : pyval -> pyexn + pyobj;
  yf_Calendars : kwargs -> pyexn + (string -> kwargs -> pyexn + pyval);
  yf_Query : string -> pyval -> list (Q + pyval) -> pyexn + Q;
  yf_screen : Q + pyval -> kwargs -> pyexn + pyval;
  yf_field_definitions : pyexn + pyval;
  yf_field_categories : pyexn + pyval
}.

Arguments builtin_str {Q} _.
Arguments yf_download {Q} _.
Arguments yf_Ticker_call {Q} _.
Arguments yf_Tickers_call {Q} _.
Arguments yf_Ticker_attr {Q} _.
Arguments yf_option_chain {Q} _.
Arguments yf_Search {Q} _.
Arguments yf_Lookup {Q} _.
Arguments yf_Market {Q} _.
Arguments yf_Sector {Q} _.
Arguments yf_Industry {Q} _.
Arguments yf_Calendars {Q} _.
Arguments yf_Query {Q} _.
Arguments yf_screen {Q} _.
Arguments yf_field_definitions {Q} _.
Arguments yf_field_categories {Q} _.

Section Handlers.
Context {Q : Type}.
Variable p : Provider Q.

(** [args.get(name)] followed by [if not value: raise ValueError(...)] *)
Definition required (args : pyval) (name : string) : pyexn + pyval :=
  value <-- py_get args name PNone ;;
  if negb (truthy value) then inl (value_error (name ++ " is required"))
  else inr value.

(** [_handle_download] *)
Definition _handle_download (args : pyval) : pyexn + pyval :=
  tickers <-- required args "tickers" ;;
  yf_download p tickers (kwargs_without "tickers" args).

(** [_handle_ticker] *)
Definition _handle_ticker (args : pyval) (fn_name : string) : pyexn + pyval :=
  ticker <-- required args "ticker" ;;
  yf_Ticker_call p ticker fn_name (kwargs_without "ticker" args).

(** [_handle_tickers] *)
Definition _handle_tickers (args : pyval) (fn_name : string) : pyexn + pyval :=
  tickers <-- required args "tickers" ;;
  yf_Tickers_call p tickers fn_name (kwargs_without "tickers" args).

(** [_handle_ticker_attr] *)
Definition _handle_ticker_attr (args : pyval) (attr_name : string)
  : pyexn + pyval :=
  ticker <-- required args "ticker" ;;
  yf_Ticker_attr p ticker attr_name.

(** The dictionary display [{name: obj.name, ...}], attributes read in
    order. *)
Fixpoint read_attrs (obj : pyobj) (names : list (string * string))
  : pyexn + list (string * pyval) :=
  match names with
  | [] => inr []
  | (key, attr) :: names' =>
      v <-- obj attr ;;
      rest <-- read_attrs obj names' ;;
      inr ((key, v) :: rest)
  end.

Definition same_names (names : list string) : list (string * string) :=
  map (fun n => (n, n)) names.

(** [_handle_options] *)
Definition _handle_options (args : pyval) : pyexn + pyval :=
  ticker <-- required args "ticker" ;;
  date <-- py_get args "date" PNone ;;
  tz <-- py_get args "tz" PNone ;;
  chain <-- yf_option_chain p ticker date tz ;;
  data <-- read_attrs chain (same_names ["calls"; "puts"; "underlying"]) ;;
  inr (PObject data).

(** [_handle_search] *)
Definition _handle_search (args : pyval) : pyexn + pyval :=
  query <-- required args "query" ;;
  search <-- yf_Search p query
    (kwargs_only ["max_results"; "news_count"; "include_research"] args) ;;
  data <-- read_attrs search (same_names ["quotes"; "news"; "research"]) ;;
  inr (PObject data).

Definition lookup_kinds_message : string :=
  "kind must be one of: all, stock, mutualfund, etf, index, future, currency, cryptocurrency".

(** [_handle_lookup]: the answer for a kind is [lookup.get_<kind>(count=count)]
    when [count] is not falsy and the attribute [lookup.<kind>] otherwise. *)
Definition _handle_lookup (args : pyval) : pyexn + pyval :=
  query <-- required args "query" ;;
  kind <-- py_get args "kind" (PStr "all") ;;
  count <-- py_get args "count" PNone ;;
  lookup <-- yf_Lookup p query ;;
  let count := if truthy count then Some count else None in
  if eq_str kind "all" then lookup "all" count
  else if eq_str kind "stock" then lookup "stock" count
  else if eq_str kind "mutualfund" then lookup "mutualfund" count
  else if eq_str kind "etf" then lookup "etf" count
  else if eq_str kind "index" then lookup "index" count
  else if eq_str kind "future" then lookup "future" count
  else if eq_str kind "currency" then lookup "currency" count
  else if eq_str kind "cryptocurrency" then lookup "cryptocurrency" count
  else inl (value_error lookup_kinds_message).

(** [_handle_market] *)
Definition _handle_market (args : pyval) : pyexn + pyval :=
  market <-- required args "market" ;;
  item <-- py_get args "item" (PStr "summary") ;;
  market_obj <-- yf_Market p market ;;
  if eq_str item "status" then market_obj "status"
  else if eq_str item "summary" then market_obj "summary"
  else inl (value_error "item must be one of: status, summary").

(** [data.get(field)] on a dictionary with string keys: a list or a
    dictionary cannot be hashed, any other value that is not one of the keys
    gives [None]. *)
Definition data_get (data : list (string * pyval)) (field : pyval)
  : pyexn + pyval :=
  match field with
  | PStr s =>
      inr match dict_lookup s (str_items data) with
          | Some v => v
          | None => PNone
          end
  | PList _ | PDict _ =>
      inl (Exn "TypeError" ("unhashable type: '" ++ type_name field ++ "'"))
  | _ => inr PNone
  end.

Definition sector_attrs : list string :=
  ["key"; "name"; "symbol"; "ticker"; "overview"; "top_companies";
   "research_reports"; "top_etfs"; "top_mutual_funds"; "industries"].

Definition industry_attrs : list string :=
  ["key"; "name"; "symbol"; "ticker"; "overview"; "top_companies";
   "research_reports"; "sector_key"; "sector_name";
   "top_performing_companies"; "top_growth_companies"].

(** [_handle_sector] *)
Definition _handle_sector (args : pyval) : pyexn + pyval :=
  key <-- required args "key" ;;
  sector <-- yf_Sector p key ;;
  field <-- py_get args "field" PNone ;;
  data <-- read_attrs sector (same_names sector_attrs) ;;
  if is_none field then inr (PObject data) else data_get data field.

(** [_handle_industry] *)
Definition _handle_industry (args : pyval) : pyexn + pyval :=
  key <-- required args "key" ;;
  industry <-- yf_Industry p key ;;
  field <-- py_get args "field" PNone ;;
  data <-- read_attrs industry (same_names industry_attrs) ;;
  if is_none field then inr (PObject data) else data_get data field.

(** [_handle_calendars] *)
Definition _handle_calendars (args : pyval) : pyexn + pyval :=
  calendar_type <-- required args "calendar_type" ;;
  calendar <-- yf_Calendars p (kwargs_only ["start"; "end"] args) ;;
  if eq_str calendar_type "earnings" then
    calendar "get_earnings_calendar"
             (kwargs_get ["limit"; "market_cap"; "filter_most_active"] args)
  else if eq_str calendar_type "ipo" then
    calendar "get_ipo_info_calendar" (kwargs_get ["limit"] args)
  else if eq_str calendar_type "splits" then
    calendar "get_splits_calendar" (kwargs_get ["limit"] args)
  else if eq_str calendar_type "economic_events" then
    calendar "get_economic_events_calendar" (kwargs_get ["limit"] args)
  else
    inl (value_error
           "calendar_type must be one of: earnings, ipo, splits, economic_events").

Definition query_class (query_type : pyval) : pyexn + string :=
  if eq_str query_type "equity" then inr "EquityQuery"
  else if eq_str query_type "fund" then inr "FundQuery"
  else inl (value_error "query_type must be 'equity' or 'fund'").

(** [isinstance(operand, dict) and "operator" in operand] *)
Definition is_subquery (operand : pyval) : bool :=
  is_dict operand && has_key "operator" operand.

(** The loop of [_build_query] over the operands, with [build] for the
    recursive call. *)
Fixpoint parse_operands (build : pyval -> pyexn + Q) (operands : list pyval)
  : pyexn + list (Q + pyval) :=
  match operands with
  | [] => inr []
  | operand :: rest =>
      parsed <-- (if is_subquery operand
                  then q <-- build operand ;; inr (inl q)
                  else inr (inr operand)) ;;
      others <-- parse_operands build rest ;;
      inr (parsed :: others)
  end.

Definition query_incomplete : pyexn :=
  value_error "Query must include operator and operands".

(** [_build_query].  The recursion is on the payload: the operands are
    found and parsed where the dictionary holds them, so that the recursive
    calls are on parts of the payload ([_build_query_eq] below gives the body
    as the source has it).  Iterating over operands that are not a list gives
    characters or keys, none of which is a sub-query. *)
Fixpoint _build_query (query_type : pyval) (query_payload : pyval)
  : pyexn + Q :=
  query_cls <-- query_class query_type ;;
  match query_payload with
  | PDict d =>
      let operator :=
        match dict_lookup "operator" d with Some v => v | None => PNone end in
      let found :=
        (fix find (d : list (pykey * pyval))
           : option (pyval * (pyexn + list (Q + pyval))) :=
           match d with
           | [] => None
           | (KStr s, x) :: d' =>
               if String.eqb s "operands" then
                 Some (x,
                       match x with
                       | PList l | PTuple l | PNdarray l =>
                           (fix loop (l : list pyval) : pyexn + list (Q + pyval) :=
                              match l with
                              | [] => inr []
                              | operand :: rest =>
                                  parsed <-- (if is_subquery operand
                                              then q <-- _build_query query_type operand ;;
                                                   inr (inl q)
                                              else inr (inr operand)) ;;
                                  others <-- loop rest ;;
                                  inr (parsed :: others)
                              end) l
                       | _ => xs <-- py_iter x ;; inr (map inr xs)
                       end)
               else find d'
           | _ :: d' => find d'
           end) d in
      match found with
      | Some (operands, parsed) =>
          if negb (truthy operator) || is_none operands
          then inl query_incomplete
          else parsed <-- parsed ;; yf_Query p query_cls operator parsed
      | None => inl query_incomplete
      end
  | _ =>
      inl (Exn "AttributeError"
               ("'" ++ type_name query_payload
                    ++ "' object has no attribute 'get'"))
  end.

Definition screen_options : list string :=
  ["offset"; "size"; "count"; "sortField"; "sortAsc"; "userId"; "userIdType"].

(** [_handle_screen] *)
Definition _handle_screen (args : pyval) : pyexn + pyval :=
  query <-- py_get args "query" PNone ;;
  query_type <-- py_get args "query_type" PNone ;;
  query <-- (if is_dict query then
               if negb (truthy query_type)
               then inl (value_error "query_type is required when query is a dict")
               else q <-- _build_query query_type query ;; inr (inl q)
             else inr (inr query)) ;;
  match query with
  | inr PNone => inl (value_error "query is required")
  | _ => yf_screen p query (kwargs_only screen_options args)
  end.

(** [str(action)] in the message of [_dispatch] *)
Definition action_str (action : pyval) : string :=
  match action with PStr s => s | _ => builtin_str p action end.

(** [_dispatch].  [_handle_field_definitions] and [_handle_field_categories]
    only read constants of the provider library and are fields of
    [Provider]. *)
Definition _dispatch (action args : pyval) : pyexn + pyval :=
  if eq_str action "download" then _handle_download args
  else if eq_str action "ticker_history" then _handle_ticker args "history"
  else if eq_str action "tickers_history" then _handle_tickers args "history"
  else if eq_str action "tickers_news" then _handle_tickers args "news"
  else if eq_str action "ticker_info" then _handle_ticker_attr args "info"
  else if eq_str action "ticker_fast_info" then _handle_ticker_attr args "fast_info"
  else if eq_str action "ticker_actions" then _handle_ticker_attr args "actions"
  else if eq_str action "ticker_dividends" then _handle_ticker_attr args "dividends"
  else if eq_str action "ticker_splits" then _handle_ticker_attr args "splits"
  else if eq_str action "ticker_capital_gains" then _handle_ticker_attr args "capital_gains"
  else if eq_str action "ticker_news" then _handle_ticker_attr args "news"
  else if eq_str action "ticker_income_stmt" then _handle_ticker args "get_income_stmt"
  else if eq_str action "ticker_balance_sheet" then _handle_ticker args "get_balance_sheet"
  else if eq_str action "ticker_cash_flow" then _handle_ticker args "get_cash_flow"
  else if eq_str action "ticker_earnings" then _handle_ticker_attr args "earnings"
  else if eq_str action "ticker_calendar" then _handle_ticker_attr args "calendar"
  else if eq_str action "ticker_earnings_dates" then _handle_ticker args "get_earnings_dates"
  else if eq_str action "ticker_sec_filings" then _handle_ticker_attr args "sec_filings"
  else if eq_str action "ticker_shares" then _handle_ticker args "get_shares"
  else if eq_str action "ticker_shares_full" then _handle_ticker args "get_shares_full"
  else if eq_str action "ticker_recommendations" then _handle_ticker args "get_recommendations"
  else if eq_str action "ticker_recommendations_summary" then _handle_ticker args "get_recommendations_summary"
  else if eq_str action "ticker_upgrades_downgrades" then _handle_ticker args "get_upgrades_downgrades"
  else if eq_str action "ticker_sustainability" then _handle_ticker args "get_sustainability"
  else if eq_str action "ticker_analyst_price_targets" then _handle_ticker args "get_analyst_price_targets"
  else if eq_str action "ticker_earnings_estimate" then _handle_ticker args "get_earnings_estimate"
  else if eq_str action "ticker_revenue_estimate" then _handle_ticker args "get_revenue_estimate"
  else if eq_str action "ticker_earnings_history" then _handle_ticker args "get_earnings_history"
  else if eq_str action "ticker_eps_trend" then _handle_ticker args "get_eps_trend"
  else if eq_str action "ticker_eps_revisions" then _handle_ticker args "get_eps_revisions"
  else if eq_str action "ticker_growth_estimates" then _handle_ticker args "get_growth_estimates"
  else if eq_str action "ticker_major_holders" then _handle_ticker args "get_major_holders"
  else if eq_str action "ticker_institutional_holders" then _handle_ticker args "get_institutional_holders"
  else if eq_str action "ticker_mutualfund_holders" then _handle_ticker args "get_mutualfund_holders"
  else if eq_str action "ticker_insider_purchases" then _handle_ticker args "get_insider_purchases"
  else if eq_str action "ticker_insider_transactions" then _handle_ticker args "get_insider_transactions"
  else if eq_str action "ticker_insider_roster_holders" then _handle_ticker args "get_insider_roster_holders"
  else if eq_str action "ticker_funds_data" then _handle_ticker_attr args "funds_data"
  else if eq_str action "ticker_options" then _handle_options args
  else if eq_str action "search" then _handle_search args
  else if eq_str action "lookup" then _handle_lookup args
  else if eq_str action "market" then _handle_market args
  else if eq_str action "sector" then _handle_sector args
  else if eq_str action "industry" then _handle_industry args
  else if eq_str action "calendars" then _handle_calendars args
  else if eq_str action "screen" then _handle_screen args
  else if eq_str action "field_definitions" then yf_field_definitions p
  else if eq_str action "field_categories" then yf_field_categories p
  else inl (value_error ("Unknown action '" ++ action_str action ++ "'")).

(** The action names [_dispatch] knows, in its order. *)
Definition actions : list string :=
  ["download";
   "ticker_history";
   "tickers_history";
   "tickers_news";
   "ticker_info";
   "ticker_fast_info";
   "ticker_actions";
   "ticker_dividends";
   "ticker_splits";
   "ticker_capital_gains";
   "ticker_news";
   "ticker_income_stmt";
   "ticker_balance_sheet";
   "ticker_cash_flow";
   "ticker_earnings";
   "ticker_calendar";
   "ticker_earnings_dates";
   "ticker_sec_filings";
   "ticker_shares";
   "ticker_shares_full";
   "ticker_recommendations";
   "ticker_recommendations_summary";
   "ticker_upgrades_downgrades";
   "ticker_sustainability";
   "ticker_analyst_price_targets";
   "ticker_earnings_estimate";
   "ticker_revenue_estimate";
   "ticker_earnings_history";
   "ticker_eps_trend";
   "ticker_eps_revisions";
   "ticker_growth_estimates";
   "ticker_major_holders";
   "ticker_institutional_holders";
   "ticker_mutualfund_holders";
   "ticker_insider_purchases";
   "ticker_insider_transactions";
   "ticker_insider_roster_holders";
   "ticker_funds_data";
   "ticker_options";
   "search";
   "lookup";
   "market";
   "sector";
   "industry";
   "calendars";
   "screen";
   "field_definitions";
   "field_categories"].
End Handlers.
End Router.

(** ** Classes of values used in the statements *)

(** The strings of a list are pairwise different. *)
Fixpoint distinct (l : list string) : bool :=
  match l with
  | [] => true
  | x :: l' => negb (existsb (String.eqb x) l') && distinct l'
  end.

Definition is_str_key (k : pykey) : bool :=
  match k with KStr _ => true | _ => false end.

(** A value as [json.loads] returns it, without NaN: [None], booleans,
    integers, floats, strings, lists, and dictionaries whose keys are
    strings. *)
Fixpoint json_value (v : pyval) : bool :=
  match v with
  | PNone | PBool _ | PInt _ | PStr _ => true
  | PFloat f => negb (isnan f)
  | PList l => forallb json_value l
  | PDict d =>
      forallb (fun kv => is_str_key (fst kv) && json_value (snd kv)) d
      && distinct (map (fun kv => key_str (fst kv)) d)
  | _ => false
  end.

(** The value a comprehension leaves under a key: that of the last item
    with this key. *)
Definition assoc_last {V : Type} (key : string) (items : list (string * V))
  : option V :=
  fold_left (fun acc kv => if String.eqb (fst kv) key then Some (snd kv) else acc)
            items None.

(** An answer of the provider that is already JSON. *)
Definition info_answer : pyval :=
  PDict [(KStr "symbol", PStr "AAPL");
         (KStr "pe", PFloat (FFinite 281 (-1)));
         (KStr "tags", PList [PNone; PBool true; PInt 3])].

(** A key, column label or series name whose [str()] does not raise: an
    integer is within the conversion limit. *)
Definition key_ok (k : pykey) : bool :=
  match k with KInt z => int_str_ok z | _ => true end.

(** What [item()] of a numpy scalar may be for the result to be sent: a
    native scalar other than an infinite float and an integer beyond the
    conversion limit. *)
Definition scalar_ok (v : pyval) : bool :=
  match v with
  | PNone | PBool _ | PStr _ => true
  | PInt z => int_str_ok z
  | PFloat (FInf _) => false
  | PFloat _ => true
  | _ => false
  end.

(** A row label that can be sent: a native scalar other than a float that
    is not finite and an integer beyond the conversion limit, a timestamp or
    a period. *)
Definition label_ok (v : pyval) : bool :=
  match v with
  | PNone | PBool _ | PStr _ | PTimestamp _ | PPeriod _ => true
  | PInt z => int_str_ok z
  | PFloat f => isfinite f
  | _ => false
  end.

(** Answers of the provider that the encoder accepts once normalized:
    scalars other than infinite floats and integers beyond the conversion
    limit, timestamps and periods, numpy scalars, and lists, tuples, arrays,
    dictionaries, objects with keys whose lookups succeed, frames and series
    made of them, with keys, column labels and names that are [key_ok]. *)
Fixpoint sendable (v : pyval) : bool :=
  match v with
  | PNone | PBool _ | PStr _ | PTimestamp _ | PPeriod _ => true
  | PInt z => int_str_ok z
  | PFloat (FInf _) => false
  | PFloat _ => true
  | PList l | PTuple l | PNdarray l => forallb sendable l
  | PDict d => forallb (fun kv => key_ok (fst kv) && sendable (snd kv)) d
  | PNpGeneric item => scalar_ok item
  | PDataFrame columns index cells =>
      forallb key_ok columns && forallb label_ok index
      && forallb (forallb sendable) cells
  | PSeries name index data =>
      key_ok name && forallb label_ok index && forallb sendable data
  | PKeyed _ (Some es) =>
      forallb (fun e => key_ok (fst e)
                        && match snd e with
                           | Some x => sendable x
                           | None => false
                           end) es
  | _ => false
  end.

(** The encoder accepts the value when NaN and infinity are refused. *)
Definition encodable (v : pyval) : Prop :=
  exists j, json_dumps false v = inr j.

(** The envelope written when the import guard failed. *)
Definition dependency_envelope : json :=
  failure_envelope "Missing Python dependencies for yfinance bridge."
    (Some "Install with: pip install -r mcp/python/requirements.txt").

(** A series whose index holds a missing label. *)
Definition series_nan_label : pyval :=
  PSeries (KStr "close") [PStr "2024-01-01"; PFloat FNaN]
    [PFloat (FFinite 10 (-1)); PFloat (FFinite 20 (-1))].

(** The request [{"action": ""}]. *)
Definition env_empty_action : Env :=
  {| import_error := None;
     stdin := "{" ++ dquote ++ "action" ++ dquote ++ ": " ++ dquote ++ dquote ++ "}";
     json_loads :=
       decoder_at ("{" ++ dquote ++ "action" ++ dquote ++ ": " ++ dquote ++ dquote ++ "}")
                  (inr (PDict [(KStr "action", PStr EmptyString)]));
     _dispatch := fun _ _ => inl (Exn "RuntimeError" "router was called");
     format_exc := traceback_of |}.

(** A start without the provider library, on an input that is not JSON. *)
Definition env_no_provider : Env :=
  {| import_error := Some "No module named 'yfinance'";
     stdin := "{";
     json_loads := fun _ => inl (Exn "JSONDecodeError" "decoder was called");
     _dispatch := fun _ _ => inl (Exn "RuntimeError" "router was called");
     format_exc := traceback_of |}.

(** ** Tables read off [_dispatch] *)

(** The action is one of the names [_dispatch] compares with. *)
Definition known_action (action : pyval) : bool :=
  match action with
  | PStr s => existsb (String.eqb s) Router.actions
  | _ => false
  end.

(** The argument a handler insists on before it calls the provider, by
    action: [None] for [screen] and the two field listings. *)
Definition required_argument (action : string) : option string :=
  if existsb (String.eqb action) ["download"; "tickers_history"; "tickers_news"]
  then Some "tickers"
  else if existsb (String.eqb action) ["search"; "lookup"] then Some "query"
  else if String.eqb action "market" then Some "market"
  else if existsb (String.eqb action) ["sector"; "industry"] then Some "key"
  else if String.eqb action "calendars" then Some "calendar_type"
  else if String.prefix "ticker_" action
          && existsb (String.eqb action) Router.actions
  then Some "ticker"
  else None.

(** [args.get(name)] on a dictionary. *)
Definition arg (name : string) (d : list (pykey * pyval)) : pyval :=
  match dict_lookup name d with Some v => v | None => PNone end.

(** A run of the bridge with its own router in front of a provider;
    [tb] is [traceback.format_exc]. *)
Definition bridge {Q : Type} (p : Router.Provider Q) (text : string)
    (decoder : string -> pyexn + pyval) (tb : pyexn -> string) : Env :=
  {| import_error := None;
     stdin := text;
     json_loads := decoder;
     _dispatch := Router._dispatch p;
     format_exc := tb |}.

(** A provider that refuses every call, with [unit] for its query objects. *)
Definition refused {A : Type} : pyexn + A :=
  inl (Exn "RuntimeError" "provider was called").

Definition no_provider : Router.Provider unit :=
  {| Router.builtin_str := fun _ => "?";
     Router.yf_download := fun _ _ => refused;
     Router.yf_Ticker_call := fun _ _ _ => refused;
     Router.yf_Tickers_call := fun _ _ _ => refused;
     Router.yf_Ticker_attr := fun _ _ => refused;
     Router.yf_option_chain := fun _ _ _ => refused;
     Router.yf_Search := fun _ _ => refused;
     Router.yf_Lookup := fun _ => refused;
     Router.yf_Market := fun _ => refused;
     Router.yf_Sector := fun _ => refused;
     Router.yf_Industry := fun _ => refused;
     Router.yf_Calendars := fun _ => refused;
     Router.yf_Query := fun _ _ _ => refused;
     Router.yf_screen := fun _ _ => refused;
     Router.yf_field_definitions := refused;
     Router.yf_field_categories := refused |}.

(** The arguments [{"ticker": "AAPL", "period": "1mo", "start": null}]. *)
Definition history_args : list (pykey * pyval) :=
  [(KStr "ticker", PStr "AAPL"); (KStr "period", PStr "1mo");
   (KStr "start", PNone)].

(** [v] is one of the given string literals. *)
Definition one_of (v : pyval) (names : list string) : bool :=
  existsb (Router.eq_str v) names.

(** [args.get(name, default)] on a dictionary. *)
Definition arg_or (name : string) (default : pyval) (d : list (pykey * pyval))
  : pyval :=
  match dict_lookup name d with Some v => v | None => default end.

(** The arguments [{"query": "apple", "kind": "bond"}]. *)
Definition lookup_bond_args : list (pykey * pyval) :=
  [(KStr "query", PStr "apple"); (KStr "kind", PStr "bond")].

(** A provider whose lookups and markets can be built and answer [null]. *)
Definition null_provider : Router.Provider unit :=
  {| Router.builtin_str := fun _ => "?";
     Router.yf_download := fun _ _ => inr PNone;
     Router.yf_Ticker_call := fun _ _ _ => inr PNone;
     Router.yf_Tickers_call := fun _ _ _ => inr PNone;
     Router.yf_Ticker_attr := fun _ _ => inr PNone;
     Router.yf_option_chain := fun _ _ _ => inr (fun _ => inr PNone);
     Router.yf_Search := fun _ _ => inr (fun _ => inr PNone);
     Router.yf_Lookup := fun _ => inr (fun _ _ => inr PNone);
     Router.yf_Market := fun _ => inr (fun _ => inr PNone);
     Router.yf_Sector := fun _ => inr (fun attr => inr (PStr attr));
     Router.yf_Industry := fun _ => inr (fun attr => inr (PStr attr));
     Router.yf_Calendars := fun _ => inr (fun _ _ => inr PNone);
     Router.yf_Query := fun _ _ _ => inr tt;
     Router.yf_screen := fun _ _ => inr PNone;
     Router.yf_field_definitions := inr PNone;
     Router.yf_field_categories := inr PNone |}.

(** The value of an attribute that can be read. *)
Definition attr_value (obj : Router.pyobj) (attr : string) : pyval :=
  match obj attr with inr v => v | inl _ => PNone end.

(** A sector whose attribute [ticker] cannot be read. *)
Definition sector_without_ticker : Router.pyobj :=
  fun attr =>
    if String.eqb attr "ticker"
    then inl (Exn "YFDataException" "no ticker")
    else inr (PStr attr).

Definition broken_sector_provider : Router.Provider unit :=
  {| Router.builtin_str := fun _ => "?";
     Router.yf_download := fun _ _ => refused;
     Router.yf_Ticker_call := fun _ _ _ => refused;
     Router.yf_Tickers_call := fun _ _ _ => refused;
     Router.yf_Ticker_attr := fun _ _ => refused;
     Router.yf_option_chain := fun _ _ _ => refused;
     Router.yf_Search := fun _ _ => refused;
     Router.yf_Lookup := fun _ => refused;
     Router.yf_Market := fun _ => refused;
     Router.yf_Sector := fun _ => inr sector_without_ticker;
     Router.yf_Industry := fun _ => inr sector_without_ticker;
     Router.yf_Calendars := fun _ => refused;
     Router.yf_Query := fun _ _ _ => refused;
     Router.yf_screen := fun _ _ => refused;
     Router.yf_field_definitions := refused;
     Router.yf_field_categories := refused |}.

(** The query [{"operator": "and", "operands": [<gt>, <broken>]}] whose
    second operand is a sub-query without operands. *)
Definition gt_query : pyval :=
  PDict [(KStr "operator", PStr "gt");
         (KStr "operands", PList [PStr "intradayprice"; PInt 5])].

Definition broken_subquery : pyval := PDict [(KStr "operator", PStr "lt")].

Definition nested_query : list (pykey * pyval) :=
  [(KStr "operator", PStr "and");
   (KStr "operands", PList [gt_query; broken_subquery])].

(** The arguments [{"query": "day_gainers", "size": 5, "offset": null,
    "region": "us"}]. *)
Definition screen_args : list (pykey * pyval) :=
  [(KStr "query", PStr "day_gainers"); (KStr "size", PInt 5);
   (KStr "offset", PNone); (KStr "region", PStr "us")].

(** The envelope [main] writes for a [ValueError] of the router with the
    given message. *)
Definition refusal_envelope (tb : pyexn -> string) (message : string) : json :=
  failure_envelope message (kept_details (Some (tb (Exn "ValueError" message)))).

(** The request [{"action": "ticker_info", "args": {}}] as decoded. *)
Definition ticker_info_no_args : list (pykey * pyval) :=
  [(KStr "action", PStr "ticker_info"); (KStr "args", PDict [])].

(** An option chain whose three attributes can be read. *)
Definition chain_obj : Router.pyobj :=
  fun attr =>
    if String.eqb attr "underlying" then inr (PDict [(KStr "price", PFloat FNaN)])
    else inr (PDataFrame [KStr "strike"] [PInt 0] [[PFloat FNaN]]).

Definition chain_provider : Router.Provider unit :=
  {| Router.builtin_str := fun _ => "?";
     Router.yf_download := fun _ _ => refused;
     Router.yf_Ticker_call := fun _ _ _ => refused;
     Router.yf_Tickers_call := fun _ _ _ => refused;
     Router.yf_Ticker_attr := fun _ _ => refused;
     Router.yf_option_chain := fun _ _ _ => inr chain_obj;
     Router.yf_Search := fun _ _ => inr chain_obj;
     Router.yf_Lookup := fun _ => refused;
     Router.yf_Market := fun _ => refused;
     Router.yf_Sector := fun _ => refused;
     Router.yf_Industry := fun _ => refused;
     Router.yf_Calendars := fun _ => refused;
     Router.yf_Query := fun _ _ _ => refused;
     Router.yf_screen := fun _ _ => refused;
     Router.yf_field_definitions := refused;
     Router.yf_field_categories := refused |}.

(** The answer of the options handler in front of [chain_provider]. *)
Definition chain_answer : pyval :=
  PObject [("calls", PDataFrame [KStr "strike"] [PInt 0] [[PFloat FNaN]]);
           ("puts", PDataFrame [KStr "strike"] [PInt 0] [[PFloat FNaN]]);
           ("underlying", PDict [(KStr "price", PFloat FNaN)])].

(** * Properties *)

Lemma serialize_cell_where (v : pyval) :
  serialize_cell v = _serialize_value (where_notnull v).
Proof.
  unfold serialize_cell, where_notnull. destruct (notnull v); reflexivity.
Qed.

(** The comprehension inside [_serialize_value] is [keyed_items]. *)
Lemma serialize_keyed_items cls es :
  _serialize_value (PKeyed cls (Some es)) =
  match keyed_items _serialize_value es with
  | Some r => PObject (dict_of_items r)
  | None => PKeyed cls (Some es)
  end.
Proof.
  cbn [_serialize_value].
  match goal with
  | |- match ?a with _ => _ end = match ?b with _ => _ end =>
      replace a with b; [reflexivity|]
  end.
  induction es as [|[k [v|]] es IH]; cbn; try reflexivity.
  now rewrite IH.
Qed.

(** ** The encoder *)

Lemma json_dumps_list allow l :
  json_dumps allow (PList l) =
  match dumps_elements allow l with inl e => inl e | inr js => inr (JArray js) end.
Proof.
  cbn [json_dumps].
  match goal with
  | |- match ?a with _ => _ end = match ?b with _ => _ end =>
      replace a with b; [reflexivity|]
  end.
  induction l as [|x l IH]; cbn; [reflexivity|].
  destruct (json_dumps allow x); [reflexivity|]. now rewrite IH.
Qed.

Lemma json_dumps_tuple allow l :
  json_dumps allow (PTuple l) = json_dumps allow (PList l).
Proof. reflexivity. Qed.

Lemma json_dumps_dict allow d :
  json_dumps allow (PDict d) =
  match dumps_members allow d with inl e => inl e | inr ms => inr (JObject ms) end.
Proof.
  cbn [json_dumps].
  match goal with
  | |- match ?a with _ => _ end = match ?b with _ => _ end =>
      replace a with b; [reflexivity|]
  end.
  induction d as [|[k x] d IH]; cbn; [reflexivity|].
  destruct (json_key k); [reflexivity|].
  destruct (json_dumps allow x); [reflexivity|]. now rewrite IH.
Qed.

(** With [allow_nan=False] a document that is produced holds no [NaN] or
    [Infinity] token. *)
Lemma json_dumps_strict_finite v :
  forall j, json_dumps false v = inr j -> json_finite j = true.
Proof.
  induction v using pyval_ind; intros j Hj; try discriminate Hj;
    try (injection Hj as <-; reflexivity).
  - cbn [json_dumps] in Hj.
    destruct (int_str_ok z); [injection Hj as <-; reflexivity|discriminate Hj].
  - cbn in Hj. destruct (isfinite f) eqn:Hf; [|discriminate].
    injection Hj as <-. exact Hf.
  - rewrite json_dumps_list in Hj.
    destruct (dumps_elements false l) as [e|js] eqn:Hl; [discriminate|].
    injection Hj as <-. cbn. revert js Hl.
    induction H as [|x l Hx _ IH]; cbn; intros js Hl.
    + injection Hl as <-. reflexivity.
    + destruct (json_dumps false x) as [e|jx] eqn:Ex; [discriminate|].
      destruct (dumps_elements false l) as [e|js'] eqn:El; [discriminate|].
      injection Hl as <-. cbn. rewrite (Hx _ eq_refl), (IH _ eq_refl). reflexivity.
  - rewrite json_dumps_tuple, json_dumps_list in Hj.
    destruct (dumps_elements false l) as [e|js] eqn:Hl; [discriminate|].
    injection Hj as <-. cbn. revert js Hl.
    induction H as [|x l Hx _ IH]; cbn; intros js Hl.
    + injection Hl as <-. reflexivity.
    + destruct (json_dumps false x) as [e|jx] eqn:Ex; [discriminate|].
      destruct (dumps_elements false l) as [e|js'] eqn:El; [discriminate|].
      injection Hl as <-. cbn. rewrite (Hx _ eq_refl), (IH _ eq_refl). reflexivity.
  - rewrite json_dumps_dict in Hj.
    destruct (dumps_members false d) as [e|ms] eqn:Hd; [discriminate|].
    injection Hj as <-. cbn. revert ms Hd.
    induction H as [|[k x] d Hx _ IH]; cbn; intros ms Hd.
    + injection Hd as <-. reflexivity.
    + cbn in Hx. destruct (json_key k); [discriminate|].
      destruct (json_dumps false x) as [e|jx] eqn:Ex; [discriminate|].
      destruct (dumps_members false d) as [e|ms'] eqn:El; [discriminate|].
      injection Hd as <-. cbn.
      rewrite (Hx _ eq_refl), (IH _ eq_refl). reflexivity.
Qed.

(** With [allow_nan=False] a value holding a float that is not finite is
    refused: the encoder raises. *)
Lemma json_dumps_strict_rejects v :
  has_nonfinite v = true -> exists e, json_dumps false v = inl e.
Proof.
  induction v using pyval_ind; intros Hn; try discriminate Hn.
  - cbn in *. destruct (isfinite f); [discriminate|]. now eexists.
  - rewrite json_dumps_list. cbn in Hn.
    induction H as [|x l Hx _ IH]; cbn in *; [discriminate|].
    destruct (json_dumps false x) as [e|jx] eqn:Ex; [now eexists|].
    destruct (has_nonfinite x).
    + destruct (Hx eq_refl) as [e He]. discriminate He.
    + destruct (IH Hn) as [e He].
      destruct (dumps_elements false l); [now eexists|discriminate He].
  - rewrite json_dumps_tuple, json_dumps_list. cbn in Hn.
    induction H as [|x l Hx _ IH]; cbn in *; [discriminate|].
    destruct (json_dumps false x) as [e|jx] eqn:Ex; [now eexists|].
    destruct (has_nonfinite x).
    + destruct (Hx eq_refl) as [e He]. discriminate He.
    + destruct (IH Hn) as [e He].
      destruct (dumps_elements false l); [now eexists|discriminate He].
  - rewrite json_dumps_dict. cbn in Hn.
    induction H as [|[k x] d Hx _ IH]; cbn in *; [discriminate|].
    destruct (json_key k); [now eexists|].
    destruct (json_dumps false x) as [e|jx] eqn:Ex; [now eexists|].
    destruct (has_nonfinite x).
    + destruct (Hx eq_refl) as [e He]. discriminate He.
    + destruct (IH Hn) as [e He].
      destruct (dumps_members false d); [now eexists|discriminate He].
Qed.

(** What the encoder raises is a [ValueError] or a [TypeError], which
    [except Exception] catches. *)
Lemma json_dumps_catchable allow v :
  forall e, json_dumps allow v = inl e -> catchable e = true.
Proof.
  induction v using pyval_ind; intros e He; try discriminate He;
    try (injection He as <-; reflexivity).
  - cbn [json_dumps] in He.
    destruct (int_str_ok z); [discriminate He|injection He as <-; reflexivity].
  - cbn [json_dumps] in He.
    destruct (isfinite f || allow); [discriminate He|injection He as <-; reflexivity].
  - rewrite json_dumps_list in He.
    destruct (dumps_elements allow l) as [e'|js] eqn:Hl; [|discriminate].
    injection He as ->. revert Hl.
    induction H as [|x l Hx _ IH]; cbn; intros Hl; [discriminate|].
    destruct (json_dumps allow x) as [ex|jx] eqn:Ex.
    + injection Hl as <-. now apply Hx.
    + destruct (dumps_elements allow l) as [el|js']; [|discriminate].
      injection Hl as <-. now apply IH.
  - rewrite json_dumps_tuple, json_dumps_list in He.
    destruct (dumps_elements allow l) as [e'|js] eqn:Hl; [|discriminate].
    injection He as ->. revert Hl.
    induction H as [|x l Hx _ IH]; cbn; intros Hl; [discriminate|].
    destruct (json_dumps allow x) as [ex|jx] eqn:Ex.
    + injection Hl as <-. now apply Hx.
    + destruct (dumps_elements allow l) as [el|js']; [|discriminate].
      injection Hl as <-. now apply IH.
  - rewrite json_dumps_dict in He.
    destruct (dumps_members allow d) as [e'|ms] eqn:Hd; [|discriminate].
    injection He as ->. revert Hd.
    induction H as [|[k x] d Hx _ IH]; cbn; intros Hd; [discriminate|].
    cbn in Hx.
    destruct (json_key k) as [ek|name] eqn:Ek.
    + injection Hd as <-.
      destruct k as [|[|]|z| | | |]; cbn [json_key] in Ek;
        try discriminate Ek; try (injection Ek as <-; reflexivity).
      destruct (int_str_ok z); [discriminate Ek|injection Ek as <-; reflexivity].
    + destruct (json_dumps allow x) as [ex|jx] eqn:Ex.
      * injection Hd as <-. now apply Hx.
      * destruct (dumps_members allow d) as [el|ms']; [|discriminate].
        injection Hd as <-. now apply IH.
Qed.

(** ** The envelope *)

Lemma _err_writes message details out :
  _err message details out =
  (inr tt, (out ++ [failure_envelope message (kept_details details)])%list).
Proof.
  unfold _err, kept_details, failure_envelope.
  destruct details as [d|]; [|reflexivity].
  cbn [str_truthy]. destruct (String.eqb d EmptyString); reflexivity.
Qed.

Lemma _ok_writes w result out :
  import_error w = None ->
  _ok w result out =
  match json_dumps false (_serialize_value result) with
  | inl e => (inl e, out)
  | inr j => (inr tt, (out ++ [success_envelope j])%list)
  end.
Proof.
  intros Hi. unfold _ok. rewrite Hi.
  unfold bind, lift, PObject, str_items. rewrite json_dumps_dict. cbn.
  destruct (json_dumps false (_serialize_value result)); reflexivity.
Qed.

Lemma failure_envelope_finite message details :
  json_finite (failure_envelope message details) = true.
Proof. destruct details; reflexivity. Qed.

Lemma bind_eval {A B} (m : IO A) (k : A -> IO B) out :
  bind m k out =
  match m out with
  | (inr a, out') => k a out'
  | (inl e, out') => (inl e, out')
  end.
Proof. reflexivity. Qed.

Lemma main_dispatched w action args :
  dispatched w action args ->
  main w [] =
  try_except
    (result <- lift (_dispatch w action args) ;; _ok w result)
    (fun exc => _err (exn_str exc) (Some (format_exc w exc))) [].
Proof.
  intros (Hi & d & Hd & Ha & Hg & Ht).
  unfold main. rewrite Hi, bind_eval, Hd.
  rewrite bind_eval. unfold lift at 1. cbn [py_get]. rewrite <- Ha.
  rewrite bind_eval. unfold lift at 1. rewrite <- Hg.
  rewrite Ht. reflexivity.
Qed.

(** What the guarded part of [main] leaves behind: one document and no
    exception, or, when the router raised an exception that
    [except Exception] does not catch, that exception and no document. *)
Lemma guarded_dispatch w action args :
  (exists doc,
      try_except
        (result <- lift (_dispatch w action args) ;; _ok w result)
        (fun exc => _err (exn_str exc) (Some (format_exc w exc))) []
      = (inr tt, [doc]) /\ json_finite doc = true) \/
  (exists e,
      try_except
        (result <- lift (_dispatch w action args) ;; _ok w result)
        (fun exc => _err (exn_str exc) (Some (format_exc w exc))) []
      = (inl e, [])).
Proof.
  unfold try_except, bind, lift.
  destruct (_dispatch w action args) as [e|result].
  - destruct (catchable e); [left|right; now eexists].
    rewrite _err_writes. eexists; split; [reflexivity|].
    apply failure_envelope_finite.
  - left. destruct (import_error w) eqn:Hi.
    + unfold _ok. rewrite Hi. unfold raise. cbn [catchable exn_class existsb
        String.eqb Ascii.eqb Bool.eqb orb negb].
      rewrite _err_writes.
      eexists; split; [reflexivity|]. apply failure_envelope_finite.
    + rewrite (_ok_writes w result [] Hi).
      destruct (json_dumps false (_serialize_value result)) as [e|j] eqn:Hj.
      * rewrite (json_dumps_catchable _ _ _ Hj), _err_writes.
        eexists; split; [reflexivity|]. apply failure_envelope_finite.
      * eexists; split; [reflexivity|].
        cbn. rewrite (json_dumps_strict_finite _ _ Hj). reflexivity.
Qed.

Ltac io_step := cbv beta iota delta [bind lift ret raise].

(** Every run writes at most one document, and a document that is written
    holds no [NaN] or [Infinity] token. *)
Lemma run_stdout_finite w :
  (List.length (stdout (run w)) <= 1)%nat /\
  Forall (fun doc => json_finite doc = true) (stdout (run w)).
Proof.
  unfold run, main.
  destruct (str_truthy (import_error w)).
  { rewrite _err_writes. cbn. split; [lia|]. repeat constructor. }
  unfold _read_payload. io_step.
  destruct (negb (truthy (PStr (strip (stdin w))))); io_step.
  - cbn [py_get dict_lookup truthy negb].
    rewrite _err_writes. cbn. split; [lia|]. repeat constructor.
  - destruct (json_loads w (stdin w)) as [e|payload]; io_step;
      [cbn; split; [lia|constructor]|].
    destruct (py_get payload "action" PNone) as [e|action]; io_step;
      [cbn; split; [lia|constructor]|].
    destruct (py_get payload "args" (PDict [])) as [e|args]; io_step;
      [cbn; split; [lia|constructor]|].
    destruct (negb (truthy action)).
    + rewrite _err_writes. cbn. split; [lia|]. repeat constructor.
    + destruct (guarded_dispatch w action args) as [(doc & Hd & Hf)|(e & Hd)];
        unfold bind, lift in Hd; rewrite Hd; cbn.
      * split; [lia|]. repeat constructor. exact Hf.
      * split; [lia|constructor].
Qed.

(** ** C1 and C2: floats that are not numbers *)

(** C1. A raw scalar that is a NaN float, either a plain [float] or a
    numpy scalar whose [item()] is a NaN float, is normalized to [None]
    (JSON null): neither a number nor the string "NaN". *)
Theorem nan_normalizes_to_none (f : pyfloat) :
  isnan f = true ->
  _serialize_value (PFloat f) = PNone /\
  _serialize_value (PNpGeneric (PFloat f)) = PNone.
Proof.
  intros Hf. cbn. rewrite Hf. split; reflexivity.
Qed.

Lemma nan_normalizes_to_none_witness :
  _serialize_value (PFloat FNaN) = PNone /\
  _serialize_value (PNpGeneric (PFloat FNaN)) = PNone.
Proof. apply (nan_normalizes_to_none FNaN). reflexivity. Defined.

(** C2, as stated, fails: positive infinity is not normalized to [None];
    the normalized value is the infinite float itself. *)
Lemma infinity_not_normalized_to_none :
  _serialize_value (PFloat (FInf false)) = PFloat (FInf false) /\
  _serialize_value (PFloat (FInf false)) <> PNone /\
  has_nonfinite (_serialize_value (PFloat (FInf false))) = true.
Proof. repeat split. discriminate. Qed.

(** C2, amended. Only NaN is normalized to [None]: a float that is
    positive or negative infinity, plain or as a numpy scalar, is returned
    unchanged, so the normalized tree holds it; the success envelope's
    encoder, run with [allow_nan=False], then refuses the tree. *)
Theorem infinity_passes_normalizer (negative : bool) :
  _serialize_value (PFloat (FInf negative)) = PFloat (FInf negative) /\
  _serialize_value (PNpGeneric (PFloat (FInf negative))) = PFloat (FInf negative) /\
  json_dumps false
    (PObject [("ok", PBool true);
              ("result", _serialize_value (PFloat (FInf negative)))])
  = inl out_of_range.
Proof. repeat split. Qed.

(** ** C3: the last line of defence *)

(** C3. When the normalized result still holds a float that is not
    finite, the success path refuses it: the encoder raises, no success
    document is written, the run writes exactly one failure document
    carrying the encoder's message and ends without an exception; and no
    document written by any run holds a [NaN] or [Infinity] token. *)
Theorem nonfinite_result_rejected (w : Env) (action args result : pyval) :
  import_error w = None ->
  dispatched w action args ->
  _dispatch w action args = inr result ->
  has_nonfinite (_serialize_value result) = true ->
  (exists e,
      json_dumps false (_serialize_value result) = inl e /\
      run w =
      {| stdout := [failure_envelope (exn_str e)
                      (kept_details (Some (format_exc w e)))];
         escaped := None |}) /\
  (forall w', Forall (fun doc => json_finite doc = true) (stdout (run w'))).
Proof.
  intros Hi Hd Hr Hn. split; [|intros w'; apply run_stdout_finite].
  destruct (json_dumps_strict_rejects _ Hn) as [e He].
  exists e. split; [exact He|].
  unfold run. rewrite (main_dispatched w action args Hd).
  unfold try_except. io_step. rewrite Hr.
  rewrite (_ok_writes w result [] Hi), He.
  rewrite (json_dumps_catchable _ _ _ He), _err_writes. reflexivity.
Qed.

Lemma nonfinite_result_rejected_witness :
  (exists e,
      json_dumps false
        (_serialize_value
           (PDict [(KStr "symbol", PStr "X"); (KStr "pe", PFloat (FInf false))]))
      = inl e /\
      run env_infinite_answer =
      {| stdout := [failure_envelope (exn_str e)
                      (kept_details (Some (traceback_of e)))];
         escaped := None |}) /\
  (forall w', Forall (fun doc => json_finite doc = true) (stdout (run w'))).
Proof.
  apply (nonfinite_result_rejected env_infinite_answer
           (PStr "ticker_info") (PDict [])).
  - reflexivity.
  - split; [reflexivity|]. exists [(KStr "action", PStr "ticker_info")].
    repeat split; reflexivity.
  - reflexivity.
  - reflexivity.
Defined.

(** ** C4: the request boundary *)

(** C4. [_read_payload] runs outside the [try] of [main]: when the
    input is not blank and [json.loads] raises on it, the exception leaves
    [main] and no document at all is written, neither a success nor a
    failure envelope. *)
Theorem undecodable_input_escapes (w : Env) (e : pyexn) :
  str_truthy (import_error w) = false ->
  strip (stdin w) <> EmptyString ->
  json_loads w (stdin w) = inl e ->
  run w = {| stdout := []; escaped := Some e |}.
Proof.
  intros Hi Hs He. unfold run, main. rewrite Hi.
  unfold _read_payload. cbn [truthy]. rewrite negb_involutive.
  destruct (String.eqb_spec (strip (stdin w)) EmptyString); [contradiction|].
  io_step. rewrite He. reflexivity.
Qed.

Lemma undecodable_input_escapes_witness :
  run env_malformed =
  {| stdout := [];
     escaped :=
       Some (Exn "JSONDecodeError"
                 "Expecting property name enclosed in double quotes: line 1 column 2 (char 1)") |}.
Proof.
  apply (undecodable_input_escapes env_malformed).
  - reflexivity.
  - discriminate.
  - reflexivity.
Defined.

(** The same happens for a document that decodes but is not an object:
    [payload.get] raises outside the [try]. *)
Lemma array_input_escapes :
  run env_array =
  {| stdout := [];
     escaped := Some (Exn "AttributeError"
                          "'list' object has no attribute 'get'") |}.
Proof. reflexivity. Qed.

(** A failure raised by the router with an empty message gives a failure
    envelope whose [error] is the empty string. *)
Lemma empty_message_envelope :
  run {| import_error := None;
         stdin := ticker_info_text;
         json_loads := decoder_at ticker_info_text (inr ticker_info_request);
         _dispatch := fun _ _ => inl (Exn "NotImplementedError" EmptyString);
         format_exc := traceback_of |}
  = {| stdout :=
         [failure_envelope EmptyString
            (Some "Traceback (most recent call last): NotImplementedError: ")];
       escaped := None |}.
Proof. reflexivity. Qed.

(** What does hold at the boundary: once the input was read as a
    dictionary, and the router raises nothing but what [except Exception]
    catches, the run writes exactly one document, an envelope, and no
    exception leaves [main]. *)
Lemma envelope_when_payload_is_dict (w : Env) (d : list (pykey * pyval)) :
  _read_payload w [] = (inr (PDict d), []) ->
  (forall action args e, _dispatch w action args = inl e -> catchable e = true) ->
  exists doc, run w = {| stdout := [doc]; escaped := None |} /\ is_envelope doc.
Proof.
  assert (Henv : forall m x, is_envelope (failure_envelope m x)).
  { intros m x. unfold is_envelope, failure_envelope. cbn. eauto. }
  intros Hd Hc. unfold run, main.
  destruct (str_truthy (import_error w)) eqn:Hi.
  { rewrite _err_writes. eexists; split; [reflexivity|apply Henv]. }
  rewrite bind_eval, Hd. io_step. cbn [py_get].
  match goal with
  | |- context [negb (truthy ?a)] => destruct (negb (truthy a))
  end.
  { rewrite _err_writes. eexists; split; [reflexivity|apply Henv]. }
  unfold try_except.
  match goal with
  | |- context [_dispatch w ?a ?b] =>
      destruct (_dispatch w a b) as [e|result] eqn:Hr
  end.
  { rewrite (Hc _ _ _ Hr), _err_writes.
    eexists; split; [reflexivity|apply Henv]. }
  destruct (import_error w) eqn:Hi'.
  - unfold _ok. rewrite Hi'. unfold raise.
    cbn [catchable exn_class existsb String.eqb Ascii.eqb Bool.eqb orb negb].
    rewrite _err_writes. eexists; split; [reflexivity|apply Henv].
  - rewrite (_ok_writes w result [] Hi').
    destruct (json_dumps false (_serialize_value result)) as [e|j] eqn:Hj.
    + rewrite (json_dumps_catchable _ _ _ Hj), _err_writes.
      eexists; split; [reflexivity|apply Henv].
    + eexists; split; [reflexivity|]. unfold is_envelope, success_envelope. eauto.
Qed.

(** ** C5 to C7: frames and series *)

Lemma serialize_dataframe columns index cells :
  _serialize_value (PDataFrame columns index cells) =
  PObject [("__type__", PStr "dataframe");
           ("columns", frame_columns columns);
           ("index", PList (map _to_iso index));
           ("data", frame_data cells)].
Proof. reflexivity. Qed.

Lemma serialize_series name index data :
  _serialize_value (PSeries name index data) =
  PObject [("__type__", PStr "series");
           ("name", series_name name);
           ("index", PList (map _to_iso index));
           ("data", PList (map serialize_cell data))].
Proof. reflexivity. Qed.

(** C5, as stated, fails: the record written for a frame has no [kind]
    and no [rows] member, and the record written for a series has no
    [kind] member. *)
Lemma no_kind_discriminator :
  member "kind" (_serialize_value (PDataFrame [] [] [])) = None /\
  member "rows" (_serialize_value (PDataFrame [] [] [])) = None /\
  member "kind" (_serialize_value (PSeries KNone [] [])) = None.
Proof. repeat split. Qed.

(** C5, amended. Every two-dimensional labeled dataset is normalized
    to a record with exactly the members [__type__], [columns], [index] and
    [data], whose [__type__] is "dataframe"; every one-dimensional one to a
    record with exactly the members [__type__], [name], [index] and [data],
    whose [__type__] is "series".  The discriminator is the explicit
    [__type__] member. *)
Theorem type_discriminator columns index cells name sindex sdata :
  let frame := _serialize_value (PDataFrame columns index cells) in
  let series := _serialize_value (PSeries name sindex sdata) in
  member_names frame = ["__type__"; "columns"; "index"; "data"] /\
  member "__type__" frame = Some (PStr "dataframe") /\
  member "columns" frame = Some (frame_columns columns) /\
  member "index" frame = Some (PList (map _to_iso index)) /\
  member "data" frame = Some (frame_data cells) /\
  member_names series = ["__type__"; "name"; "index"; "data"] /\
  member "__type__" series = Some (PStr "series") /\
  member "name" series = Some (series_name name) /\
  member "index" series = Some (PList (map _to_iso sindex)) /\
  member "data" series = Some (PList (map serialize_cell sdata)).
Proof. repeat split. Qed.

(** C6, as stated, fails: a column label that is a timestamp does not
    become its ISO-8601 text; it becomes its [str()], with a blank between
    date and time. *)
Lemma timestamp_column_not_iso :
  member "columns" (_serialize_value frame_by_date)
  = Some (PList [PStr "2024-01-01 00:00:00+00:00"]) /\
  _to_iso (PTimestamp new_year) = PStr "2024-01-01T00:00:00+00:00" /\
  member "columns" (_serialize_value frame_by_date)
  <> Some (PList [_to_iso (PTimestamp new_year)]).
Proof. repeat split. discriminate. Qed.

(** C6, amended. The row labels go through [_to_iso]: an index
    element that is a timestamp becomes its [isoformat()] text, one that is
    a period becomes its label.  The column labels go through [str()]: a
    column label that is a period becomes its label, one that is a timestamp
    becomes its [str()] text, date and time joined by a blank. *)
Theorem frame_labels columns index cells (i : nat) :
  let frame := _serialize_value (PDataFrame columns index cells) in
  exists cs idx,
    member "columns" frame = Some (PList cs) /\
    member "index" frame = Some (PList idx) /\
    (forall t, nth_error index i = Some (PTimestamp t) ->
               nth_error idx i = Some (PStr (ts_date t ++ "T" ++ ts_time t))) /\
    (forall p, nth_error index i = Some (PPeriod p) ->
               nth_error idx i = Some (PStr p)) /\
    (forall t, nth_error columns i = Some (KTimestamp t) ->
               nth_error cs i = Some (PStr (ts_date t ++ " " ++ ts_time t))) /\
    (forall p, nth_error columns i = Some (KPeriod p) ->
               nth_error cs i = Some (PStr p)).
Proof.
  cbv zeta. rewrite serialize_dataframe.
  exists (map (fun c => PStr (key_str c)) columns), (map _to_iso index).
  split; [reflexivity|]. split; [reflexivity|].
  repeat split; intros x Hx; rewrite nth_error_map, Hx; reflexivity.
Qed.

Lemma frame_labels_witness :
  exists cs idx,
    member "columns" (_serialize_value frame_by_date) = Some (PList cs) /\
    member "index" (_serialize_value frame_by_date) = Some (PList idx) /\
    (forall t, nth_error [PStr "TotalRevenue"] 0 = Some (PTimestamp t) ->
               nth_error idx 0 = Some (PStr (ts_date t ++ "T" ++ ts_time t))) /\
    (forall p, nth_error [PStr "TotalRevenue"] 0 = Some (PPeriod p) ->
               nth_error idx 0 = Some (PStr p)) /\
    (forall t, nth_error [KTimestamp new_year] 0 = Some (KTimestamp t) ->
               nth_error cs 0 = Some (PStr (ts_date t ++ " " ++ ts_time t))) /\
    (forall p, nth_error [KTimestamp new_year] 0 = Some (KPeriod p) ->
               nth_error cs 0 = Some (PStr p)).
Proof.
  exact (frame_labels [KTimestamp new_year] [PStr "TotalRevenue"] [[PInt 1]] 0).
Defined.

(** C7. For a frame whose index has one label per row and whose rows
    have one cell per column, the record produced has as many index entries
    as rows and every row has as many elements as there are columns; for a
    series whose index has one label per value, the record produced has as
    many index entries as data elements. *)
Theorem shape_invariants columns index cells name sindex sdata :
  List.length index = List.length cells ->
  Forall (fun row => List.length row = List.length columns) cells ->
  List.length sindex = List.length sdata ->
  (exists cs idx rows,
      member "columns" (_serialize_value (PDataFrame columns index cells))
      = Some (PList cs) /\
      member "index" (_serialize_value (PDataFrame columns index cells))
      = Some (PList idx) /\
      member "data" (_serialize_value (PDataFrame columns index cells))
      = Some (PList rows) /\
      List.length idx = List.length rows /\
      Forall (fun row => exists xs, row = PList xs /\
                                    List.length xs = List.length cs) rows) /\
  (exists idx data,
      member "index" (_serialize_value (PSeries name sindex sdata))
      = Some (PList idx) /\
      member "data" (_serialize_value (PSeries name sindex sdata))
      = Some (PList data) /\
      List.length idx = List.length data).
Proof.
  intros Hrows Hcols Hser. split.
  - rewrite serialize_dataframe.
    exists (map (fun c => PStr (key_str c)) columns), (map _to_iso index),
      (map (fun row => PList (map serialize_cell row)) cells).
    repeat split.
    + now rewrite !length_map.
    + rewrite Forall_map. rewrite length_map.
      eapply Forall_impl; [|exact Hcols].
      intros row Hrow. exists (map serialize_cell row). split; [reflexivity|].
      now rewrite length_map.
  - rewrite serialize_series.
    exists (map _to_iso sindex), (map serialize_cell sdata).
    repeat split. now rewrite !length_map.
Qed.

Lemma shape_invariants_witness :
  (exists cs idx rows,
      member "columns" (_serialize_value frame_two_rows) = Some (PList cs) /\
      member "index" (_serialize_value frame_two_rows) = Some (PList idx) /\
      member "data" (_serialize_value frame_two_rows) = Some (PList rows) /\
      List.length idx = List.length rows /\
      Forall (fun row => exists xs, row = PList xs /\
                                    List.length xs = List.length cs) rows) /\
  (exists idx data,
      member "index"
        (_serialize_value
           (PSeries (KStr "close") [PTimestamp new_year] [PFloat (FFinite 425 (-1))]))
      = Some (PList idx) /\
      member "data"
        (_serialize_value
           (PSeries (KStr "close") [PTimestamp new_year] [PFloat (FFinite 425 (-1))]))
      = Some (PList data) /\
      List.length idx = List.length data).
Proof.
  apply (shape_invariants [KStr "date"; KStr "value"] [PInt 0; PInt 1]
           [[PStr "2024-01-01"; PFloat (FFinite 10 (-1))];
            [PStr "2024-01-02"; PFloat FNaN]]
           (KStr "close") [PTimestamp new_year] [PFloat (FFinite 425 (-1))]).
  - reflexivity.
  - repeat constructor.
  - reflexivity.
Defined.

(** Scenarios A, B and C of the specification, by evaluation. *)
Example scenario_a : _serialize_value (PFloat FNaN) = PNone.
Proof. reflexivity. Qed.

Example scenario_b :
  member "data" (_serialize_value frame_two_rows)
  = Some (PList [PList [PStr "2024-01-01"; PFloat (FFinite 10 (-1))];
                 PList [PStr "2024-01-02"; PNone]]).
Proof. reflexivity. Qed.

Example scenario_c :
  _serialize_value
    (PSeries (KStr "close") [PTimestamp new_year] [PFloat (FFinite 425 (-1))])
  = PObject [("__type__", PStr "series"); ("name", PStr "close");
             ("index", PList [PStr "2024-01-01T00:00:00+00:00"]);
             ("data", PList [PFloat (FFinite 425 (-1))])].
Proof. reflexivity. Qed.

(** ** C8: objects with keys *)







(** ** C9 and C10: the missing action *)

(** C9. With the imports in place, an input document that is an
    object without the [action] member gives exactly the failure envelope
    with the error "Missing action in payload" and no details, and nothing
    else; the router has no part in it, whatever it would answer. *)
Theorem missing_action_envelope (w : Env) (d : list (pykey * pyval)) :
  str_truthy (import_error w) = false ->
  _read_payload w [] = (inr (PDict d), []) ->
  dict_lookup "action" d = None ->
  forall router, run (with_router w router) = missing_action.
Proof.
  intros Hi Hd Ha router. unfold run, main. cbn [with_router import_error].
  rewrite Hi, bind_eval.
  change (_read_payload (with_router w router) []) with (_read_payload w []).
  rewrite Hd. io_step. cbn [py_get]. rewrite Ha. cbn [truthy negb].
  rewrite _err_writes. reflexivity.
Qed.

Lemma missing_action_envelope_witness :
  run (with_router env_empty_object (fun _ _ => inr (PStr "answer")))
  = missing_action.
Proof.
  apply (missing_action_envelope env_empty_object []).
  - reflexivity.
  - reflexivity.
  - reflexivity.
Defined.

(** Scenarios D and E of the specification, by evaluation. *)
Example scenario_e :
  stdout (run env_ticker_required)
  = [JObject [("ok", JBool false);
              ("error", JString "ticker is required");
              ("details",
               JString "Traceback (most recent call last): ValueError: ticker is required")]].
Proof. reflexivity. Qed.

Example scenario_d :
  stdout (run env_empty_object)
  = [JObject [("ok", JBool false);
              ("error", JString "Missing action in payload")]].
Proof. reflexivity. Qed.

Lemma lstrip_blank (l : list ascii) :
  forallb isspace l = true -> lstrip_chars l = [].
Proof.
  induction l as [|c l IH]; cbn; [reflexivity|].
  destruct (isspace c); [exact IH|discriminate].
Qed.

Lemma strip_blank (s : string) :
  forallb isspace (list_ascii_of_string s) = true -> strip s = EmptyString.
Proof.
  intros Hs. unfold strip. now rewrite (lstrip_blank _ Hs).
Qed.

(** C10. With the imports in place, when standard input is empty or
    holds only whitespace, the decoder is not consulted: whatever the
    decoder and the router would do, the request is the empty dictionary
    and the run writes the failure envelope "Missing action in payload" and
    ends without an exception. *)
Theorem blank_input_not_parsed (w : Env) :
  str_truthy (import_error w) = false ->
  forallb isspace (list_ascii_of_string (stdin w)) = true ->
  forall decoder router,
    _read_payload (with_decoder w decoder) [] = (inr (PDict []), []) /\
    run (with_router (with_decoder w decoder) router) = missing_action.
Proof.
  intros Hi Hs decoder router.
  pose proof (strip_blank _ Hs) as Hb. split.
  - unfold _read_payload. cbn [with_decoder stdin]. rewrite Hb. reflexivity.
  - unfold run, main. cbn [with_router with_decoder import_error].
    rewrite Hi. unfold _read_payload.
    cbn [with_router with_decoder stdin json_loads]. rewrite Hb.
    cbn [truthy String.eqb negb]. io_step. cbn [py_get dict_lookup truthy negb].
    rewrite _err_writes. reflexivity.
Qed.

Lemma blank_input_not_parsed_witness :
  _read_payload
    (with_decoder env_blank (fun _ => inr (PDict [(KStr "action", PStr "x")]))) []
  = (inr (PDict []), []) /\
  run (with_router
         (with_decoder env_blank
            (fun _ => inr (PDict [(KStr "action", PStr "x")])))
         (fun _ _ => inr PNone))
  = missing_action.
Proof.
  apply (blank_input_not_parsed env_blank); reflexivity.
Defined.

(** ** Dictionaries built by comprehensions *)

Lemma dict_set_keys {V} (k : string) (v : V) d :
  map fst (dict_set k v d) =
  if existsb (String.eqb k) (map fst d) then map fst d
  else (map fst d ++ [k])%list.
Proof.
  induction d as [|[k' v'] d IH]; cbn; [reflexivity|].
  rewrite (String.eqb_sym k k').
  destruct (String.eqb k' k) eqn:E; cbn; [reflexivity|].
  rewrite IH. destruct (existsb (String.eqb k) (map fst d)); reflexivity.
Qed.

Lemma dict_set_fresh {V} (k : string) (v : V) d :
  existsb (String.eqb k) (map fst d) = false ->
  dict_set k v d = (d ++ [(k, v)])%list.
Proof.
  induction d as [|[k' v'] d IH]; cbn; [reflexivity|].
  rewrite (String.eqb_sym k k').
  destruct (String.eqb k' k); cbn; [discriminate|].
  intros H. now rewrite IH.
Qed.

Lemma dict_set_lookup (k : string) (v : pyval) d s :
  dict_lookup s (str_items (dict_set k v d)) =
  if String.eqb k s then Some v else dict_lookup s (str_items d).
Proof.
  unfold str_items. induction d as [|[k' v'] d IH]; cbn.
  - reflexivity.
  - destruct (String.eqb k' k) eqn:E; cbn.
    + apply String.eqb_eq in E. subst k'.
      destruct (String.eqb k s); reflexivity.
    + rewrite IH. destruct (String.eqb k' s) eqn:E'; [|reflexivity].
      apply String.eqb_eq in E'. subst k'.
      rewrite String.eqb_sym, E. reflexivity.
Qed.

Lemma existsb_eqb_In (k : string) l :
  existsb (String.eqb k) l = true <-> In k l.
Proof.
  rewrite existsb_exists. split.
  - intros (x & Hx & E). apply String.eqb_eq in E. now subst.
  - intros H. exists k. split; [exact H|apply String.eqb_refl].
Qed.

Lemma dict_set_nodup {V} (k : string) (v : V) d :
  NoDup (map fst d) -> NoDup (map fst (dict_set k v d)).
Proof.
  intros Hd. rewrite dict_set_keys.
  destruct (existsb (String.eqb k) (map fst d)) eqn:E; [exact Hd|].
  apply NoDup_app; [exact Hd|repeat constructor; intros []|].
  intros x Hx [<-|[]].
  apply existsb_eqb_In in Hx. congruence.
Qed.

Lemma dict_of_items_acc {V} (items acc : list (string * V)) :
  (forall k, In k (map fst items) -> ~ In k (map fst acc)) ->
  distinct (map fst items) = true ->
  fold_left (fun d kv => dict_set (fst kv) (snd kv) d) items acc
  = (acc ++ items)%list.
Proof.
  revert acc. induction items as [|[k v] items IH]; intros acc Hfresh Hd; cbn.
  - now rewrite app_nil_r.
  - cbn in Hd. apply andb_true_iff in Hd as [Hk Hd].
    apply negb_true_iff in Hk.
    rewrite dict_set_fresh.
    + rewrite IH; [now rewrite <- app_assoc| |exact Hd].
      intros k' Hk'. rewrite map_app, in_app_iff. cbn.
      intros [Hin|[<-|[]]].
      * apply (Hfresh k'); [now right|exact Hin].
      * apply existsb_eqb_In in Hk'. congruence.
    + destruct (existsb (String.eqb k) (map fst acc)) eqn:E; [|reflexivity].
      apply existsb_eqb_In in E. exfalso. apply (Hfresh k); [now left|exact E].
Qed.

Lemma dict_of_items_distinct {V} (items : list (string * V)) :
  distinct (map fst items) = true -> dict_of_items items = items.
Proof.
  intros Hd. unfold dict_of_items.
  rewrite dict_of_items_acc; [reflexivity| |exact Hd].
  intros k _ [].
Qed.

Lemma dict_of_items_fold (items acc : list (string * pyval)) :
  NoDup (map fst acc) ->
  NoDup (map fst (fold_left (fun d kv => dict_set (fst kv) (snd kv) d) items acc))
  /\ forall s,
      dict_lookup s
        (str_items (fold_left (fun d kv => dict_set (fst kv) (snd kv) d) items acc))
      = fold_left (fun o kv => if String.eqb (fst kv) s then Some (snd kv) else o)
          items (dict_lookup s (str_items acc)).
Proof.
  revert acc. induction items as [|[k v] items IH]; intros acc Hacc; cbn.
  - split; [exact Hacc|reflexivity].
  - destruct (IH (dict_set k v acc) (dict_set_nodup k v acc Hacc)) as [Hn Hl].
    split; [exact Hn|]. intros s. now rewrite Hl, dict_set_lookup.
Qed.

(** ** Values that are already JSON *)

(** X1. A value as [json.loads] returns it (no NaN, string keys) is
    left unchanged by the normalizer. *)
Theorem json_value_fixed (v : pyval) :
  json_value v = true -> _serialize_value v = v.
Proof.
  induction v using pyval_ind; intros Hj; try discriminate Hj; try reflexivity.
  - cbn in *. apply negb_true_iff in Hj. now rewrite Hj.
  - cbn in *. f_equal. induction H as [|x l Hx _ IH]; [reflexivity|].
    cbn in Hj. apply andb_true_iff in Hj as [Hx' Hl].
    cbn. now rewrite (Hx Hx'), (IH Hl).
  - cbn [json_value] in Hj. apply andb_true_iff in Hj as [Hvals Hkeys].
    cbn [_serialize_value].
    assert (Hmap : map (fun kv => (key_str (fst kv), _serialize_value (snd kv))) d
                   = map (fun kv => (key_str (fst kv), snd kv)) d).
    { clear Hkeys. induction H as [|[k x] d Hx _ IH]; [reflexivity|].
      cbn in Hvals. apply andb_true_iff in Hvals as [Hkx Hd].
      apply andb_true_iff in Hkx as [_ Hx'].
      cbn in *. now rewrite (Hx Hx'), (IH Hd). }
    rewrite Hmap, dict_of_items_distinct by now rewrite map_map.
    unfold PObject, str_items. f_equal.
    clear H Hkeys Hmap. induction d as [|[k x] d IH]; [reflexivity|].
    cbn in Hvals. apply andb_true_iff in Hvals as [Hkx Hd].
    apply andb_true_iff in Hkx as [Hk _].
    cbn. rewrite (IH Hd). destruct k; try discriminate Hk. reflexivity.
Qed.

Lemma json_value_fixed_witness : _serialize_value info_answer = info_answer.
Proof. apply (json_value_fixed info_answer). reflexivity. Defined.

(** X2. The dictionary built for a [dict] has string keys that are pairwise
    different, and under each of them the normalized value of the last item
    whose key has this [str()]: keys that collide after [str()], such as [1]
    and ["1"], are merged and the later one wins. *)
Theorem comprehension_last_wins (d : list (pykey * pyval)) :
  exists r,
    _serialize_value (PDict d) = PObject r /\
    NoDup (map fst r) /\
    forall s,
      member s (_serialize_value (PDict d))
      = assoc_last s
          (map (fun kv => (key_str (fst kv), _serialize_value (snd kv))) d).
Proof.
  exists (dict_of_items
            (map (fun kv => (key_str (fst kv), _serialize_value (snd kv))) d)).
  split; [reflexivity|].
  unfold dict_of_items, assoc_last.
  destruct (dict_of_items_fold
              (map (fun kv => (key_str (fst kv), _serialize_value (snd kv))) d)
              [] (NoDup_nil _)) as [Hn Hl].
  split; [exact Hn|]. intros s. cbn [_serialize_value member PObject].
  unfold dict_of_items. now rewrite Hl.
Qed.

(** X3. The normalizer never returns a NaN float; no element of the
    list it returns for a list, a tuple or an array is a NaN float; and no
    cell of the data of a frame or a series is normalized to a NaN float. *)
Theorem result_never_nan :
  (forall v, _serialize_value v <> PFloat FNaN) /\
  (forall l l',
      _serialize_value (PList l) = PList l' \/
      _serialize_value (PTuple l) = PList l' \/
      _serialize_value (PNdarray l) = PList l' ->
      ~ In (PFloat FNaN) l') /\
  (forall v, serialize_cell v <> PFloat FNaN).
Proof.
  assert (Htop : forall v, _serialize_value v <> PFloat FNaN).
  { intros v. destruct v; cbn; try discriminate.
    - destruct f; discriminate.
    - destruct v; try discriminate. destruct f; discriminate.
    - destruct keys as [es|]; [|discriminate].
      match goal with |- context [match ?a with _ => _ end] => destruct a end;
        discriminate. }
  split; [exact Htop|]. split.
  - intros l l' H Hin.
    assert (l' = map _serialize_value l) as ->
        by (destruct H as [H|[H|H]]; cbn in H; now injection H as <-).
    apply in_map_iff in Hin as (x & Hx & _). exact (Htop x Hx).
  - intros v. unfold serialize_cell. destruct (notnull v); [apply Htop|discriminate].
Qed.

(** ** Answers that can be sent *)

Lemma encodable_list l : Forall encodable l -> encodable (PList l).
Proof.
  intros H. unfold encodable. rewrite json_dumps_list.
  assert (exists js, dumps_elements false l = inr js) as [js ->];
    [|now eexists].
  induction H as [|x l [j Hj] _ [js IH]]; cbn; [now eexists|].
  rewrite Hj, IH. now eexists.
Qed.

Lemma encodable_object items :
  Forall (fun kv => encodable (snd kv)) items -> encodable (PObject items).
Proof.
  intros H. unfold encodable, PObject. rewrite json_dumps_dict.
  assert (exists ms, dumps_members false (str_items items) = inr ms) as [ms ->];
    [|now eexists].
  induction H as [|[k x] l [j Hj] _ [ms IH]]; cbn; [now eexists|].
  cbn in Hj. rewrite Hj. unfold str_items in IH. rewrite IH. now eexists.
Qed.

Lemma dict_set_Forall {V} (P : V -> Prop) k v (d : list (string * V)) :
  P v -> Forall (fun kv => P (snd kv)) d ->
  Forall (fun kv => P (snd kv)) (dict_set k v d).
Proof.
  intros Hv Hd. induction Hd as [|[k' v'] d Hx Hd IH]; cbn.
  - now repeat constructor.
  - destruct (String.eqb k' k); constructor; auto.
Qed.

Lemma dict_of_items_Forall {V} (P : V -> Prop) (items : list (string * V)) :
  Forall (fun kv => P (snd kv)) items ->
  Forall (fun kv => P (snd kv)) (dict_of_items items).
Proof.
  unfold dict_of_items. generalize (@nil (string * V)) (@Forall_nil _ (fun kv : string * V => P (snd kv))).
  intros acc Hacc H. revert acc Hacc.
  induction H as [|[k v] items Hv _ IH]; intros acc Hacc; cbn; [exact Hacc|].
  apply IH. now apply dict_set_Forall.
Qed.

Ltac encoded :=
  unfold encodable; cbn [json_dumps];
  repeat match goal with
         | H : int_str_ok _ = true |- _ => rewrite H
         | H : isfinite _ = true |- _ => rewrite H
         end;
  cbn [orb]; now eexists.

Lemma encodable_label v : label_ok v = true -> encodable (_to_iso v).
Proof.
  destruct v; try discriminate; cbn [label_ok _to_iso]; intros H; encoded.
Qed.

Lemma encodable_scalar v :
  scalar_ok v = true -> encodable (_serialize_value (PNpGeneric v)).
Proof.
  destruct v; try discriminate; cbn [scalar_ok _serialize_value]; intros H;
    try encoded.
  destruct f; try discriminate H; cbn [isnan]; encoded.
Qed.

Lemma sendable_encodable (v : pyval) :
  sendable v = true -> encodable (_serialize_value v).
Proof.
  assert (Hlist : forall l, Forall (fun x => sendable x = true ->
                                             encodable (_serialize_value x)) l ->
                            forallb sendable l = true ->
                            Forall encodable (map _serialize_value l)).
  { intros l H Hs. induction H as [|x l Hx _ IH]; cbn [map]; [constructor|].
    cbn [forallb] in Hs. apply andb_true_iff in Hs as [Hsx Hsl].
    constructor; auto. }
  assert (Hcells : forall l, Forall (fun x => sendable x = true ->
                                              encodable (_serialize_value x)) l ->
                             forallb sendable l = true ->
                             Forall encodable (map serialize_cell l)).
  { intros l H Hs. induction H as [|x l Hx _ IH]; cbn [map]; [constructor|].
    cbn [forallb] in Hs. apply andb_true_iff in Hs as [Hsx Hsl].
    constructor; auto.
    unfold serialize_cell. destruct (notnull x); [auto|encoded]. }
  assert (Hidx : forall l, forallb label_ok l = true ->
                           Forall encodable (map _to_iso l)).
  { induction l as [|x l IH]; cbn [map forallb]; [constructor|].
    intros Hs. apply andb_true_iff in Hs as [Hx Hl].
    constructor; [now apply encodable_label|auto]. }
  induction v using pyval_ind; intros Hs; try discriminate Hs;
    cbn [sendable] in Hs.
  - encoded.
  - encoded.
  - cbn [_serialize_value]. encoded.
  - destruct f; try discriminate Hs; cbn [_serialize_value isnan]; encoded.
  - encoded.
  - cbn [_serialize_value]. apply encodable_list. now apply Hlist.
  - cbn [_serialize_value]. apply encodable_list. now apply Hlist.
  - cbn [_serialize_value]. apply encodable_object, dict_of_items_Forall.
    induction H as [|[k x] d Hx _ IH]; cbn [map]; [constructor|].
    cbn [forallb fst snd] in Hs. apply andb_true_iff in Hs as [Hsx Hsd].
    apply andb_true_iff in Hsx as [_ Hsx]. constructor; cbn [snd]; auto.
  - cbn [_serialize_value _to_iso]. encoded.
  - cbn [_serialize_value _to_iso]. encoded.
  - now apply encodable_scalar.
  - cbn [_serialize_value]. apply encodable_list. now apply Hlist.
  - rewrite serialize_dataframe.
    apply andb_true_iff in Hs as [Hs Hc]. apply andb_true_iff in Hs as [_ Hi].
    apply encodable_object. repeat constructor; cbn [snd].
    + encoded.
    + unfold frame_columns. apply encodable_list.
      clear. induction columns; cbn [map]; constructor; auto. encoded.
    + apply encodable_list. now apply Hidx.
    + unfold frame_data. apply encodable_list.
      induction H0 as [|row cells Hrow _ IH]; cbn [map]; [constructor|].
      cbn [forallb] in Hc. apply andb_true_iff in Hc as [Hr Hc].
      constructor; auto. apply encodable_list. now apply Hcells.
  - rewrite serialize_series.
    apply andb_true_iff in Hs as [Hs Hd]. apply andb_true_iff in Hs as [_ Hi].
    apply encodable_object. repeat constructor; cbn [snd].
    + encoded.
    + unfold series_name. destruct name; encoded.
    + apply encodable_list. now apply Hidx.
    + apply encodable_list. now apply Hcells.
  - destruct keys as [es|]; [|discriminate Hs].
    rewrite serialize_keyed_items.
    assert (exists r, keyed_items _serialize_value es = Some r /\
                      Forall (fun kv => encodable (snd kv)) r) as (r & -> & Hr).
    { induction H as [|[k [x|]] es Hx _ IH]; cbn [forallb fst snd keyed_items] in *.
      - eexists; split; [reflexivity|constructor].
      - apply andb_true_iff in Hs as [Hsx Hse].
        apply andb_true_iff in Hsx as [_ Hsx].
        destruct (IH Hse) as (r & -> & Hr).
        eexists; split; [reflexivity|]. constructor; cbn [snd]; auto.
      - apply andb_true_iff in Hs as [Hsx _].
        apply andb_true_iff in Hsx as [_ Hsx]. discriminate Hsx. }
    now apply encodable_object, dict_of_items_Forall.
Qed.

(** X4. An answer built from scalars other than infinite floats and
    integers beyond the conversion limit, timestamps, periods, numpy scalars
    and containers of these, with keys and labels whose [str()] does not
    raise, is accepted by the encoder of the success path once normalized:
    NaN, missing cells, tuples, arrays, dictionaries, frames and series are
    no obstacle. *)
Theorem sendable_encodes (v : pyval) :
  sendable v = true -> exists j, json_dumps false (_serialize_value v) = inr j.
Proof. exact (sendable_encodable v). Qed.

Lemma sendable_encodes_witness :
  exists j, json_dumps false (_serialize_value frame_two_rows) = inr j.
Proof. apply (sendable_encodes frame_two_rows). reflexivity. Defined.

(** ** Labels that are not normalized *)

Lemma nonfinite_label_kept index f :
  In (PFloat f) index -> isfinite f = false ->
  existsb has_nonfinite (map _to_iso index) = true.
Proof.
  intros Hin Hf. apply existsb_exists. exists (PFloat f). split.
  - apply in_map_iff. exists (PFloat f). now split.
  - cbn. now rewrite Hf.
Qed.

(** X5. Row labels only go through [_to_iso]: a label that is a NaN or
    an infinite float stays in the index of the normalized frame or series,
    and the encoder of the success path then refuses the whole answer. *)
Theorem nonfinite_label_refused columns index cells name data f :
  In (PFloat f) index -> isfinite f = false ->
  (member "index" (_serialize_value (PDataFrame columns index cells))
   = Some (PList (map _to_iso index)) /\
   In (PFloat f) (map _to_iso index) /\
   exists e, json_dumps false (_serialize_value (PDataFrame columns index cells))
             = inl e) /\
  (member "index" (_serialize_value (PSeries name index data))
   = Some (PList (map _to_iso index)) /\
   exists e, json_dumps false (_serialize_value (PSeries name index data))
             = inl e).
Proof.
  intros Hin Hf. pose proof (nonfinite_label_kept index f Hin Hf) as Hk.
  repeat split.
  - apply in_map_iff. exists (PFloat f). now split.
  - apply json_dumps_strict_rejects. rewrite serialize_dataframe.
    cbn [has_nonfinite PObject str_items map existsb snd]. rewrite Hk.
    cbn. now rewrite !orb_true_r.
  - apply json_dumps_strict_rejects. rewrite serialize_series.
    cbn [has_nonfinite PObject str_items map existsb snd]. rewrite Hk.
    cbn. now rewrite !orb_true_r.
Qed.

Lemma nonfinite_label_refused_witness :
  (member "index"
     (_serialize_value
        (PDataFrame [KStr "price"] [PStr "2024-01-01"; PFloat FNaN]
           [[PInt 1]; [PInt 2]]))
   = Some (PList (map _to_iso [PStr "2024-01-01"; PFloat FNaN])) /\
   In (PFloat FNaN) (map _to_iso [PStr "2024-01-01"; PFloat FNaN]) /\
   exists e,
     json_dumps false
       (_serialize_value
          (PDataFrame [KStr "price"] [PStr "2024-01-01"; PFloat FNaN]
             [[PInt 1]; [PInt 2]]))
     = inl e) /\
  (member "index" (_serialize_value series_nan_label)
   = Some (PList (map _to_iso [PStr "2024-01-01"; PFloat FNaN])) /\
   exists e, json_dumps false (_serialize_value series_nan_label) = inl e).
Proof.
  apply (nonfinite_label_refused [KStr "price"] [PStr "2024-01-01"; PFloat FNaN]
           [[PInt 1]; [PInt 2]] (KStr "close")
           [PFloat (FFinite 10 (-1)); PFloat (FFinite 20 (-1))] FNaN).
  - right. left. reflexivity.
  - reflexivity.
Defined.

(** ** Runs *)

(** X8. An [action] that is present but falsy (an empty string, [null],
    [0], [false], an empty list or object) is treated as a missing one: the
    run writes the envelope "Missing action in payload" and the router has
    no part in it. *)
Theorem falsy_action_is_missing (w : Env) (d : list (pykey * pyval)) (a : pyval) :
  str_truthy (import_error w) = false ->
  _read_payload w [] = (inr (PDict d), []) ->
  dict_lookup "action" d = Some a ->
  truthy a = false ->
  forall router, run (with_router w router) = missing_action.
Proof.
  intros Hi Hd Ha Ht router. unfold run, main. cbn [with_router import_error].
  rewrite Hi, bind_eval.
  change (_read_payload (with_router w router) []) with (_read_payload w []).
  rewrite Hd. io_step. cbn [py_get]. rewrite Ha, Ht. cbn [negb].
  rewrite _err_writes. reflexivity.
Qed.

Lemma falsy_action_is_missing_witness :
  run (with_router env_empty_action (fun _ _ => inr PNone)) = missing_action.
Proof.
  apply (falsy_action_is_missing env_empty_action
           [(KStr "action", PStr EmptyString)] (PStr EmptyString));
    reflexivity.
Defined.

(** X9. A decoded document that is not an object (a list, a string, a
    number, [null]) ends the run with the [AttributeError] of [payload.get],
    outside the [try] of [main]: nothing is written. *)
Theorem non_object_payload_escapes (w : Env) (payload : pyval) :
  str_truthy (import_error w) = false ->
  _read_payload w [] = (inr payload, []) ->
  Router.is_dict payload = false ->
  run w =
  {| stdout := [];
     escaped :=
       Some (Exn "AttributeError"
                 ("'" ++ type_name payload ++ "' object has no attribute 'get'")) |}.
Proof.
  intros Hi Hp Hd. unfold run, main. rewrite Hi, bind_eval, Hp. io_step.
  destruct payload; try discriminate Hd; reflexivity.
Qed.

Lemma non_object_payload_escapes_witness :
  run env_array =
  {| stdout := [];
     escaped :=
       Some (Exn "AttributeError"
                 ("'" ++ type_name (PList []) ++ "' object has no attribute 'get'")) |}.
Proof.
  apply (non_object_payload_escapes env_array (PList [])); reflexivity.
Defined.

(** X10. When the import guard recorded a message, the run writes the
    dependency envelope and nothing else, without reading the input: the
    text on standard input, the decoder and the router play no part. *)
Theorem import_failure_envelope (w : Env) :
  str_truthy (import_error w) = true ->
  run w = {| stdout := [dependency_envelope]; escaped := None |}.
Proof.
  intros Hi. unfold run, main. rewrite Hi, _err_writes. reflexivity.
Qed.

Lemma import_failure_envelope_witness :
  run env_no_provider = {| stdout := [dependency_envelope]; escaped := None |}.
Proof. apply (import_failure_envelope env_no_provider). reflexivity. Defined.

(** X11. A run either writes exactly one document, an envelope, and
    ends without an exception, or ends with an exception and has written
    nothing. *)
Theorem one_envelope_or_exception (w : Env) :
  (escaped (run w) = None /\
   exists doc, stdout (run w) = [doc] /\ is_envelope doc) \/
  (exists e, escaped (run w) = Some e /\ stdout (run w) = []).
Proof.
  assert (Henv : forall m d, is_envelope (failure_envelope m d)).
  { intros m d. unfold is_envelope, failure_envelope. cbn. eauto. }
  unfold run, main.
  destruct (str_truthy (import_error w)).
  { rewrite _err_writes. left. cbn. eauto. }
  unfold _read_payload. io_step.
  destruct (negb (truthy (PStr (strip (stdin w))))); io_step.
  - cbn [py_get dict_lookup truthy negb].
    rewrite _err_writes. left. cbn. eauto.
  - destruct (json_loads w (stdin w)) as [e|payload]; io_step;
      [right; cbn; eauto|].
    destruct (py_get payload "action" PNone) as [e|action]; io_step;
      [right; cbn; eauto|].
    destruct (py_get payload "args" (PDict [])) as [e|args]; io_step;
      [right; cbn; eauto|].
    destruct (negb (truthy action)).
    + rewrite _err_writes. left. cbn. eauto.
    + unfold try_except.
      destruct (_dispatch w action args) as [e|result].
      * destruct (catchable e); [|right; cbn; eauto].
        rewrite _err_writes. left. cbn. eauto.
      * left. destruct (import_error w) eqn:Hi.
        -- unfold _ok. rewrite Hi. unfold raise.
           cbn [catchable exn_class existsb String.eqb Ascii.eqb Bool.eqb orb negb].
           rewrite _err_writes. cbn. eauto.
        -- rewrite (_ok_writes w result [] Hi).
           destruct (json_dumps false (_serialize_value result)) as [e|j] eqn:Hj.
           ++ rewrite (json_dumps_catchable _ _ _ Hj), _err_writes. cbn. eauto.
           ++ cbn. split; [reflexivity|]. eexists; split; [reflexivity|].
              unfold is_envelope, success_envelope. eauto.
Qed.

Lemma lstrip_nonblank (l : list ascii) :
  forallb isspace l = false ->
  exists c t, lstrip_chars l = c :: t /\ isspace c = false.
Proof.
  induction l as [|c l IH]; cbn; [discriminate|].
  destruct (isspace c) eqn:E; [exact IH|]. intros _. now exists c, l.
Qed.

Lemma strip_nonblank (s : string) :
  forallb isspace (list_ascii_of_string s) = false -> strip s <> EmptyString.
Proof.
  intros Hs. unfold strip.
  destruct (lstrip_nonblank _ Hs) as (c & t & -> & Hc).
  assert (Hr : forallb isspace (rev (c :: t)) = false).
  { cbn. rewrite forallb_app. cbn. rewrite Hc. now rewrite andb_false_r. }
  destruct (lstrip_nonblank _ Hr) as (c' & t' & -> & _).
  cbn. destruct (rev t') as [|x r]; discriminate.
Qed.

(** X12. When the input holds a character that is not whitespace,
    [_read_payload] is the decoder's answer on the text as it was read, not
    on the stripped text, be it a value or an exception. *)
Theorem nonblank_input_decoded (w : Env) :
  forallb isspace (list_ascii_of_string (stdin w)) = false ->
  _read_payload w [] = (json_loads w (stdin w), []).
Proof.
  intros Hs. unfold _read_payload. cbn [truthy]. rewrite negb_involutive.
  destruct (String.eqb_spec (strip (stdin w)) EmptyString) as [E|_];
    [now apply strip_nonblank in E|reflexivity].
Qed.

Lemma nonblank_input_decoded_witness :
  _read_payload env_malformed [] = (json_loads env_malformed (stdin env_malformed), []).
Proof. apply (nonblank_input_decoded env_malformed). reflexivity. Defined.

(** ** The router *)

Ltac route :=
  cbv -[Router._handle_download Router._handle_ticker Router._handle_tickers
        Router._handle_ticker_attr Router._handle_options Router._handle_search
        Router._handle_lookup Router._handle_market Router._handle_sector
        Router._handle_industry Router._handle_calendars Router._handle_screen
        Router.yf_field_definitions Router.yf_field_categories
        Router.builtin_str append].

Lemma dispatch_unknown {Q} (p : Router.Provider Q) (action args : pyval) :
  known_action action = false ->
  Router._dispatch p action args
  = inl (Router.value_error
           ("Unknown action '" ++ Router.action_str p action ++ "'")).
Proof.
  intros Hk. unfold Router._dispatch.
  destruct action; try reflexivity.
  unfold known_action, Router.actions in Hk. cbn [existsb] in Hk.
  repeat (apply orb_false_elim in Hk; destruct Hk as [?E Hk]).
  unfold Router.eq_str.
  repeat match goal with
         | E : String.eqb s _ = false |- _ => rewrite E; clear E
         end.
  reflexivity.
Qed.

(** X13. An action that is not one of the names [_dispatch] compares
    with, or that is not a string at all, is refused with the [ValueError]
    "Unknown action '<action>'", whatever the arguments and the provider. *)
Theorem unknown_action_refused {Q} (p : Router.Provider Q) (action args : pyval) :
  known_action action = false ->
  Router._dispatch p action args
  = inl (Exn "ValueError"
             ("Unknown action '" ++ Router.action_str p action ++ "'")).
Proof. exact (dispatch_unknown p action args). Qed.

Lemma unknown_action_refused_witness :
  Router._dispatch no_provider (PStr "ticker_price") (PDict [])
  = inl (Exn "ValueError" "Unknown action 'ticker_price'").
Proof.
  apply (unknown_action_refused no_provider (PStr "ticker_price") (PDict [])).
  reflexivity.
Defined.

Lemma required_missing (d : list (pykey * pyval)) (name : string) :
  truthy (arg name d) = false ->
  Router.required (PDict d) name
  = inl (Router.value_error (name ++ " is required")).
Proof.
  intros Ht. unfold Router.required, Router.and_then, arg in *. cbn [py_get].
  now rewrite Ht.
Qed.

Lemma required_present (d : list (pykey * pyval)) (name : string) :
  truthy (arg name d) = true ->
  Router.required (PDict d) name = inr (arg name d).
Proof.
  intros Ht. unfold Router.required, Router.and_then, arg in *. cbn [py_get].
  now rewrite Ht.
Qed.

Ltac unfold_handler :=
  unfold Router._handle_download, Router._handle_ticker, Router._handle_tickers,
    Router._handle_ticker_attr, Router._handle_options, Router._handle_search,
    Router._handle_lookup, Router._handle_market, Router._handle_sector,
    Router._handle_industry, Router._handle_calendars.

Lemma dispatch_required {Q} (p : Router.Provider Q) (action name : string)
    (d : list (pykey * pyval)) :
  required_argument action = Some name ->
  truthy (arg name d) = false ->
  Router._dispatch p (PStr action) (PDict d)
  = inl (Router.value_error (name ++ " is required")).
Proof.
  intros Hr Ht. unfold required_argument, Router.actions in Hr.
  cbn [existsb] in Hr.
  repeat match type of Hr with
         | context [String.eqb action ?c] =>
             destruct (String.eqb_spec action c) as [->|_];
             [ vm_compute in Hr;
               first [ discriminate Hr
                     | injection Hr as <-; route; unfold_handler;
                       rewrite (required_missing d _ Ht); reflexivity ]
             | ]
         end.
  cbn in Hr. try rewrite andb_false_r in Hr. discriminate Hr.
Qed.

(** X14. Every handler that insists on an argument checks it before it
    calls the provider: when the arguments are a dictionary in which that
    argument is missing or falsy, the action is refused with the
    [ValueError] "<argument> is required", whatever the provider would do. *)
Theorem required_argument_checked {Q} (p : Router.Provider Q)
    (action name : string) (d : list (pykey * pyval)) :
  required_argument action = Some name ->
  truthy (arg name d) = false ->
  Router._dispatch p (PStr action) (PDict d)
  = inl (Exn "ValueError" (name ++ " is required")).
Proof. exact (dispatch_required p action name d). Qed.

Lemma required_argument_checked_witness :
  Router._dispatch no_provider (PStr "ticker_info")
    (PDict [(KStr "ticker", PStr EmptyString)])
  = inl (Exn "ValueError" "ticker is required").
Proof.
  apply (required_argument_checked no_provider "ticker_info" "ticker"
           [(KStr "ticker", PStr EmptyString)]); reflexivity.
Defined.

Lemma py_get_not_dict (args : pyval) (key : string) (default : pyval) :
  Router.is_dict args = false ->
  py_get args key default
  = inl (Exn "AttributeError"
             ("'" ++ type_name args ++ "' object has no attribute 'get'")).
Proof. destruct args; try discriminate; reflexivity. Qed.

(** X15. Every action other than the two field listings reads its
    arguments with [args.get]: arguments that are not a dictionary (a list,
    a string, [null]) make it raise the [AttributeError] of [get] before
    anything else happens. *)
Theorem arguments_must_be_dict {Q} (p : Router.Provider Q) (action : string)
    (args : pyval) :
  existsb (String.eqb action) Router.actions = true ->
  action <> "field_definitions" ->
  action <> "field_categories" ->
  Router.is_dict args = false ->
  Router._dispatch p (PStr action) args
  = inl (Exn "AttributeError"
             ("'" ++ type_name args ++ "' object has no attribute 'get'")).
Proof.
  intros Hk Hd Hc Ha. unfold Router.actions in Hk. cbn [existsb] in Hk.
  repeat match type of Hk with
         | context [String.eqb action ?c] =>
             destruct (String.eqb_spec action c) as [->|_];
             [ first [ contradiction
                     | route; unfold_handler;
                       unfold Router._handle_screen, Router.required;
                       rewrite (py_get_not_dict args _ _ Ha); reflexivity ]
             | ]
         end.
  discriminate Hk.
Qed.

Lemma arguments_must_be_dict_witness :
  Router._dispatch no_provider (PStr "download") (PList [PStr "AAPL"])
  = inl (Exn "AttributeError"
             ("'" ++ type_name (PList [PStr "AAPL"])
                  ++ "' object has no attribute 'get'")).
Proof.
  apply (arguments_must_be_dict no_provider "download" (PList [PStr "AAPL"]));
    [reflexivity|discriminate|discriminate|reflexivity].
Defined.

Lemma kwargs_without_In (name : string) (d : list (pykey * pyval)) k v :
  In (k, v) (Router.kwargs_without name (PDict d)) <->
  In (k, v) d /\ k <> KStr name /\ v <> PNone.
Proof.
  unfold Router.kwargs_without. cbn [Router.items]. rewrite filter_In. cbn.
  split.
  - intros [Hin Hf]. apply andb_true_iff in Hf as [Hk Hv].
    repeat split; [exact Hin| |].
    + intros ->. cbn in Hk. now rewrite String.eqb_refl in Hk.
    + intros ->. discriminate Hv.
  - intros (Hin & Hk & Hv). split; [exact Hin|].
    apply andb_true_iff. split.
    + destruct k; try reflexivity. cbn.
      destruct (String.eqb_spec s name) as [->|]; [now contradiction Hk|reflexivity].
    + destruct v; try reflexivity. now contradiction Hv.
Qed.

(** X16. A ticker method is called with the ticker and with the other
    arguments as keyword arguments: exactly the items of the request's
    arguments other than [ticker] itself and those whose value is [None],
    in the order of the request. *)
Theorem ticker_call_forwards {Q} (p : Router.Provider Q)
    (d : list (pykey * pyval)) (fn_name : string) :
  truthy (arg "ticker" d) = true ->
  Router._handle_ticker p (PDict d) fn_name
  = Router.yf_Ticker_call p (arg "ticker" d) fn_name
      (Router.kwargs_without "ticker" (PDict d)) /\
  Router.kwargs_without "ticker" (PDict d)
  = filter (fun kv => negb (Router.key_is "ticker" (fst kv))
                      && negb (Router.is_none (snd kv))) d /\
  forall k v,
    In (k, v) (Router.kwargs_without "ticker" (PDict d)) <->
    In (k, v) d /\ k <> KStr "ticker" /\ v <> PNone.
Proof.
  intros Ht. split; [|split; [reflexivity|apply kwargs_without_In]].
  unfold Router._handle_ticker. now rewrite (required_present d _ Ht).
Qed.

Lemma ticker_call_forwards_witness :
  Router._handle_ticker no_provider (PDict history_args) "history"
  = Router.yf_Ticker_call no_provider (PStr "AAPL") "history"
      [(KStr "period", PStr "1mo")].
Proof.
  apply (ticker_call_forwards no_provider history_args "history"). reflexivity.
Defined.

Ltac eq_str_false H :=
  unfold one_of in H; cbn [existsb] in H;
  repeat (apply orb_false_elim in H; destruct H as [?E H]);
  repeat match goal with
         | E : Router.eq_str _ _ = false |- _ => rewrite E; clear E
         end.

(** X17. The lookup, the market and the calendar are built before the
    selector that names what to read from them is checked: with a selector
    that is none of the accepted names, the handler raises what the
    provider's constructor raises, and its own [ValueError] only when the
    constructor succeeds. *)
Theorem selector_checked_after_construction {Q} (p : Router.Provider Q)
    (d : list (pykey * pyval)) :
  (truthy (arg "query" d) = true ->
   one_of (arg_or "kind" (PStr "all") d)
     ["all"; "stock"; "mutualfund"; "etf"; "index"; "future"; "currency";
      "cryptocurrency"] = false ->
   Router._handle_lookup p (PDict d)
   = match Router.yf_Lookup p (arg "query" d) with
     | inl e => inl e
     | inr _ => inl (Exn "ValueError" Router.lookup_kinds_message)
     end) /\
  (truthy (arg "market" d) = true ->
   one_of (arg_or "item" (PStr "summary") d) ["status"; "summary"] = false ->
   Router._handle_market p (PDict d)
   = match Router.yf_Market p (arg "market" d) with
     | inl e => inl e
     | inr _ => inl (Exn "ValueError" "item must be one of: status, summary")
     end) /\
  (truthy (arg "calendar_type" d) = true ->
   one_of (arg "calendar_type" d) ["earnings"; "ipo"; "splits"; "economic_events"]
   = false ->
   Router._handle_calendars p (PDict d)
   = match Router.yf_Calendars p (Router.kwargs_only ["start"; "end"] (PDict d)) with
     | inl e => inl e
     | inr _ =>
         inl (Exn "ValueError"
                  "calendar_type must be one of: earnings, ipo, splits, economic_events")
     end).
Proof.
  repeat split; intros Ht Hk.
  - unfold Router._handle_lookup. rewrite (required_present d _ Ht).
    cbn [Router.and_then py_get]. fold (arg_or "kind" (PStr "all") d).
    destruct (Router.yf_Lookup p (arg "query" d)); [reflexivity|].
    eq_str_false Hk. reflexivity.
  - unfold Router._handle_market. rewrite (required_present d _ Ht).
    cbn [Router.and_then py_get]. fold (arg_or "item" (PStr "summary") d).
    destruct (Router.yf_Market p (arg "market" d)); [reflexivity|].
    eq_str_false Hk. reflexivity.
  - unfold Router._handle_calendars. rewrite (required_present d _ Ht).
    cbn [Router.and_then].
    destruct (Router.yf_Calendars p _); [reflexivity|].
    eq_str_false Hk. reflexivity.
Qed.

Lemma selector_checked_after_construction_witness :
  Router._handle_lookup no_provider (PDict lookup_bond_args) = refused /\
  Router._handle_lookup null_provider (PDict lookup_bond_args)
  = inl (Exn "ValueError" Router.lookup_kinds_message).
Proof.
  split.
  - apply (proj1 (selector_checked_after_construction no_provider lookup_bond_args));
      reflexivity.
  - apply (proj1 (selector_checked_after_construction null_provider lookup_bond_args));
      reflexivity.
Defined.

(** X18. Defaults of the lookup and of the market: without [kind] the
    lookup reads the kind [all], and with a [count] that is missing or falsy
    (such as [0]) it reads the attribute, not the method with a count;
    without [item] the market reads its summary. *)
Theorem lookup_market_defaults {Q} (p : Router.Provider Q)
    (d : list (pykey * pyval)) :
  (truthy (arg "query" d) = true ->
   dict_lookup "kind" d = None ->
   truthy (arg "count" d) = false ->
   Router._handle_lookup p (PDict d)
   = match Router.yf_Lookup p (arg "query" d) with
     | inl e => inl e
     | inr lookup => lookup "all" None
     end) /\
  (truthy (arg "market" d) = true ->
   dict_lookup "item" d = None ->
   Router._handle_market p (PDict d)
   = match Router.yf_Market p (arg "market" d) with
     | inl e => inl e
     | inr market_obj => market_obj "summary"
     end).
Proof.
  split.
  - intros Ht Hk Hc. unfold Router._handle_lookup.
    rewrite (required_present d _ Ht). cbn [Router.and_then py_get].
    rewrite Hk. fold (arg "count" d). rewrite Hc.
    destruct (Router.yf_Lookup p (arg "query" d)); reflexivity.
  - intros Ht Hi. unfold Router._handle_market.
    rewrite (required_present d _ Ht). cbn [Router.and_then py_get].
    rewrite Hi. destruct (Router.yf_Market p (arg "market" d)); reflexivity.
Qed.

Lemma lookup_market_defaults_witness :
  Router._handle_lookup null_provider
    (PDict [(KStr "query", PStr "apple"); (KStr "count", PInt 0)])
  = match Router.yf_Lookup null_provider (PStr "apple") with
    | inl e => inl e
    | inr lookup => lookup "all" None
    end.
Proof.
  apply (proj1 (lookup_market_defaults null_provider
                  [(KStr "query", PStr "apple"); (KStr "count", PInt 0)]));
    reflexivity.
Defined.

Lemma read_attrs_all (obj : Router.pyobj) (names : list string) :
  (forall a, In a names -> exists v, obj a = inr v) ->
  Router.read_attrs obj (Router.same_names names)
  = inr (map (fun a => (a, attr_value obj a)) names).
Proof.
  unfold Router.same_names.
  induction names as [|a names IH]; intros H; cbn; [reflexivity|].
  destruct (H a (or_introl eq_refl)) as [v Hv].
  unfold attr_value at 1. rewrite Hv. cbn.
  rewrite IH by (intros b Hb; apply H; now right). reflexivity.
Qed.

Lemma read_attrs_fails (obj : Router.pyobj) (names : list string) a e :
  In a names -> obj a = inl e ->
  exists e', Router.read_attrs obj (Router.same_names names) = inl e'.
Proof.
  unfold Router.same_names.
  induction names as [|b names IH]; intros Hin He; [contradiction|].
  cbn. destruct (obj b) as [e'|v] eqn:Hb; cbn; [now eexists|].
  destruct Hin as [->|Hin]; [congruence|].
  destruct (IH Hin He) as [e' ->]. now eexists.
Qed.

Lemma data_lookup (f : string -> pyval) (names : list string) (s : string) :
  dict_lookup s (str_items (map (fun a => (a, f a)) names))
  = if existsb (String.eqb s) names then Some (f s) else None.
Proof.
  unfold str_items. induction names as [|a names IH]; cbn; [reflexivity|].
  rewrite (String.eqb_sym s a).
  destruct (String.eqb_spec a s) as [->|]; [reflexivity|exact IH].
Qed.

Lemma select_field (obj : Router.pyobj) (names : list string) (s : string) :
  (forall a, In a names -> exists v, obj a = inr v) ->
  Router.and_then (Router.read_attrs obj (Router.same_names names))
    (fun data => if Router.is_none (PStr s) then inr (PObject data)
                 else Router.data_get data (PStr s))
  = inr (if existsb (String.eqb s) names then attr_value obj s else PNone).
Proof.
  intros H. rewrite (read_attrs_all obj names H). cbn.
  rewrite data_lookup. destruct (existsb (String.eqb s) names); reflexivity.
Qed.

(** X19. When every attribute of the sector or industry can be read, a
    [field] that names one of them selects its value, and a [field] that
    names none of them is not an error: the answer is [None]. *)
Theorem unknown_field_is_none {Q} (p : Router.Provider Q)
    (d : list (pykey * pyval)) (obj : Router.pyobj) (s : string) :
  truthy (arg "key" d) = true ->
  dict_lookup "field" d = Some (PStr s) ->
  (forall a, exists v, obj a = inr v) ->
  (Router.yf_Sector p (arg "key" d) = inr obj ->
   Router._handle_sector p (PDict d)
   = inr (if existsb (String.eqb s) Router.sector_attrs
          then attr_value obj s else PNone)) /\
  (Router.yf_Industry p (arg "key" d) = inr obj ->
   Router._handle_industry p (PDict d)
   = inr (if existsb (String.eqb s) Router.industry_attrs
          then attr_value obj s else PNone)).
Proof.
  intros Hk Hf Hall. split; intros Ho.
  - unfold Router._handle_sector. rewrite (required_present d _ Hk).
    cbn [Router.and_then]. rewrite Ho. cbn [py_get Router.and_then]. rewrite Hf.
    apply select_field. intros a _. apply Hall.
  - unfold Router._handle_industry. rewrite (required_present d _ Hk).
    cbn [Router.and_then]. rewrite Ho. cbn [py_get Router.and_then]. rewrite Hf.
    apply select_field. intros a _. apply Hall.
Qed.

Lemma unknown_field_is_none_witness :
  Router._handle_sector null_provider
    (PDict [(KStr "key", PStr "technology"); (KStr "field", PStr "holdings")])
  = inr PNone.
Proof.
  apply (proj1 (unknown_field_is_none null_provider
                  [(KStr "key", PStr "technology"); (KStr "field", PStr "holdings")]
                  (fun attr => inr (PStr attr)) "holdings"
                  eq_refl eq_refl (fun a => ex_intro _ (PStr a) eq_refl))).
  reflexivity.
Defined.

(** X20. The sector and industry handlers read every attribute before
    they look at [field]: when one attribute cannot be read, the request
    fails, also when [field] asks for another attribute. *)
Theorem attribute_failure_fails_request {Q} (p : Router.Provider Q)
    (d : list (pykey * pyval)) (obj : Router.pyobj) (a : string) (e : pyexn) :
  truthy (arg "key" d) = true ->
  obj a = inl e ->
  (In a Router.sector_attrs ->
   Router.yf_Sector p (arg "key" d) = inr obj ->
   exists e', Router._handle_sector p (PDict d) = inl e') /\
  (In a Router.industry_attrs ->
   Router.yf_Industry p (arg "key" d) = inr obj ->
   exists e', Router._handle_industry p (PDict d) = inl e').
Proof.
  intros Hk He. split; intros Hin Ho.
  - unfold Router._handle_sector. rewrite (required_present d _ Hk).
    cbn [Router.and_then]. rewrite Ho. cbn [py_get Router.and_then].
    destruct (read_attrs_fails obj _ a e Hin He) as [e' ->]. now eexists.
  - unfold Router._handle_industry. rewrite (required_present d _ Hk).
    cbn [Router.and_then]. rewrite Ho. cbn [py_get Router.and_then].
    destruct (read_attrs_fails obj _ a e Hin He) as [e' ->]. now eexists.
Qed.

Lemma attribute_failure_fails_request_witness :
  exists e',
    Router._handle_sector broken_sector_provider
      (PDict [(KStr "key", PStr "technology"); (KStr "field", PStr "name")])
    = inl e'.
Proof.
  apply (proj1 (attribute_failure_fails_request broken_sector_provider
                  [(KStr "key", PStr "technology"); (KStr "field", PStr "name")]
                  sector_without_ticker "ticker"
                  (Exn "YFDataException" "no ticker") eq_refl eq_refl)).
  - cbn. tauto.
  - reflexivity.
Defined.

(** ** Screener queries *)

Lemma parse_operands_flat {Q} (build : pyval -> pyexn + Q) (xs : list pyval) :
  forallb (fun x => negb (Router.is_subquery x)) xs = true ->
  Router.parse_operands build xs = inr (map inr xs).
Proof.
  induction xs as [|x xs IH]; cbn; [reflexivity|].
  intros H. apply andb_true_iff in H as [Hx Hxs].
  apply negb_true_iff in Hx. rewrite Hx. cbn. now rewrite IH.
Qed.

Lemma chars_flat (s : string) :
  forallb (fun x => negb (Router.is_subquery x)) (Router.chars s) = true.
Proof. induction s; cbn; [reflexivity|exact IHs]. Qed.

Lemma keys_flat (d : list (pykey * pyval)) :
  forallb (fun x => negb (Router.is_subquery x))
          (map (fun kv => Router.key_value (fst kv)) d) = true.
Proof.
  induction d as [|[k v] d IH]; cbn; [reflexivity|].
  rewrite IH. destruct k; reflexivity.
Qed.

(** The body of [_build_query] as the source has it. *)
Lemma _build_query_eq {Q} (p : Router.Provider Q) (query_type : pyval)
    (d : list (pykey * pyval)) :
  Router._build_query p query_type (PDict d)
  = Router.and_then (Router.query_class query_type) (fun query_cls =>
      let operator := arg "operator" d in
      let operands := arg "operands" d in
      if negb (truthy operator) || Router.is_none operands
      then inl Router.query_incomplete
      else
        Router.and_then (Router.py_iter operands) (fun xs =>
        Router.and_then
          (Router.parse_operands (Router._build_query p query_type) xs)
          (fun parsed => Router.yf_Query p query_cls operator parsed))).
Proof.
  cbn [Router._build_query].
  destruct (Router.query_class query_type) as [e|cls]; [reflexivity|].
  cbn [Router.and_then]. unfold arg.
  match goal with
  | |- match ?found with _ => _ end = _ =>
      assert (Hf : found =
                   match dict_lookup "operands" d with
                   | Some x =>
                       Some (x,
                             Router.and_then (Router.py_iter x)
                               (Router.parse_operands
                                  (Router._build_query p query_type)))
                   | None => None
                   end)
  end.
  { induction d as [|[k x] d IH]; [reflexivity|].
    destruct k; try exact IH. cbn [dict_lookup].
    destruct (String.eqb s "operands"); [|exact IH].
    f_equal. f_equal.
    destruct x; try reflexivity.
    - cbn. now rewrite parse_operands_flat by apply chars_flat.
    - cbn. induction l as [|o l IHl]; [reflexivity|].
      cbn. destruct (Router.is_subquery o); cbn.
      + destruct (Router._build_query p query_type o); cbn; [reflexivity|].
        cbn in IHl. now rewrite IHl.
      + cbn in IHl. now rewrite IHl.
    - cbn. induction l as [|o l IHl]; [reflexivity|].
      cbn. destruct (Router.is_subquery o); cbn.
      + destruct (Router._build_query p query_type o); cbn; [reflexivity|].
        cbn in IHl. now rewrite IHl.
      + cbn in IHl. now rewrite IHl.
    - cbn. now rewrite parse_operands_flat by apply keys_flat.
    - cbn. induction l as [|o l IHl]; [reflexivity|].
      cbn. destruct (Router.is_subquery o); cbn.
      + destruct (Router._build_query p query_type o); cbn; [reflexivity|].
        cbn in IHl. now rewrite IHl.
      + cbn in IHl. now rewrite IHl. }
  rewrite Hf.
  destruct (dict_lookup "operands" d) as [x|]; cbn.
  - match goal with
    | |- context [negb ?b || Router.is_none x] =>
        destruct (negb b || Router.is_none x); [reflexivity|]
    end.
    destruct (Router.py_iter x); reflexivity.
  - now rewrite orb_true_r.
Qed.

(** X21. A query whose operands hold no sub-query (no dictionary with
    an [operator] key) is built in one call of the query class, with the
    operator and the operands as they are; operands given as a string are
    iterated character by character and are not refused. *)
Theorem flat_query_built {Q} (p : Router.Provider Q) (query_type : pyval)
    (cls : string) (d : list (pykey * pyval)) (xs : list pyval) :
  Router.query_class query_type = inr cls ->
  truthy (arg "operator" d) = true ->
  Router.is_none (arg "operands" d) = false ->
  Router.py_iter (arg "operands" d) = inr xs ->
  forallb (fun x => negb (Router.is_subquery x)) xs = true ->
  Router._build_query p query_type (PDict d)
  = Router.yf_Query p cls (arg "operator" d) (map inr xs) /\
  (forall s, arg "operands" d = PStr s -> xs = Router.chars s).
Proof.
  intros Hc Ho Hn Hi Hf. split.
  - rewrite _build_query_eq, Hc. cbn [Router.and_then]. cbv zeta.
    rewrite Ho, Hn, Hi. cbn [negb orb Router.and_then].
    now rewrite parse_operands_flat.
  - intros s Hs. rewrite Hs in Hi. now injection Hi as <-.
Qed.

Lemma flat_query_built_witness :
  Router._build_query null_provider (PStr "equity") gt_query
  = Router.yf_Query null_provider "EquityQuery" (PStr "gt")
      (map inr [PStr "intradayprice"; PInt 5]).
Proof.
  apply (flat_query_built null_provider (PStr "equity") "EquityQuery"
           [(KStr "operator", PStr "gt");
            (KStr "operands", PList [PStr "intradayprice"; PInt 5])]
           [PStr "intradayprice"; PInt 5]); reflexivity.
Defined.

Lemma parse_operands_fails {Q} (build : pyval -> pyexn + Q) (xs : list pyval) x e :
  In x xs -> Router.is_subquery x = true -> build x = inl e ->
  exists e', Router.parse_operands build xs = inl e'.
Proof.
  induction xs as [|y xs IH]; intros Hin Hs He; [contradiction|].
  cbn. destruct Hin as [->|Hin].
  - rewrite Hs, He. cbn. now eexists.
  - destruct (if Router.is_subquery y then _ else _); cbn; [now eexists|].
    destruct (IH Hin Hs He) as [e' ->]. cbn. now eexists.
Qed.

(** X22. A sub-query that cannot be built makes the whole query fail:
    when an operand of a well-formed query is a dictionary with an
    [operator] key whose own build raises, [_build_query] raises. *)
Theorem broken_subquery_fails_query {Q} (p : Router.Provider Q)
    (query_type : pyval) (cls : string) (d : list (pykey * pyval))
    (l : list pyval) (x : pyval) (e : pyexn) :
  Router.query_class query_type = inr cls ->
  truthy (arg "operator" d) = true ->
  arg "operands" d = PList l ->
  In x l ->
  Router.is_subquery x = true ->
  Router._build_query p query_type x = inl e ->
  exists e', Router._build_query p query_type (PDict d) = inl e'.
Proof.
  intros Hc Ho Hl Hin Hs He.
  rewrite _build_query_eq, Hc. cbn [Router.and_then]. cbv zeta.
  rewrite Ho, Hl. cbn [negb orb Router.is_none Router.py_iter Router.and_then].
  destruct (parse_operands_fails _ l x e Hin Hs He) as [e' ->].
  cbn. now eexists.
Qed.

Lemma broken_subquery_fails_query_witness :
  exists e', Router._build_query null_provider (PStr "fund") (PDict nested_query)
             = inl e'.
Proof.
  apply (broken_subquery_fails_query null_provider (PStr "fund") "FundQuery"
           nested_query [gt_query; broken_subquery] broken_subquery
           Router.query_incomplete).
  - reflexivity.
  - reflexivity.
  - reflexivity.
  - right. left. reflexivity.
  - reflexivity.
  - reflexivity.
Defined.

(** X23. [_build_query] checks the query type first and the payload
    second: a type other than "equity" and "fund" is refused whatever the
    payload is, and with a valid type a payload whose [operator] is missing
    or falsy, or whose [operands] is missing or [None], is refused with
    "Query must include operator and operands"; the query class is not
    called. *)
Theorem query_validation {Q} (p : Router.Provider Q) (query_type : pyval) :
  (one_of query_type ["equity"; "fund"] = false ->
   forall payload,
     Router._build_query p query_type payload
     = inl (Exn "ValueError" "query_type must be 'equity' or 'fund'")) /\
  (one_of query_type ["equity"; "fund"] = true ->
   forall d,
     truthy (arg "operator" d) = false \/ arg "operands" d = PNone ->
     Router._build_query p query_type (PDict d)
     = inl (Exn "ValueError" "Query must include operator and operands")).
Proof.
  split.
  - intros Hq payload.
    assert (Hc : Router.query_class query_type
                 = inl (Router.value_error "query_type must be 'equity' or 'fund'")).
    { unfold Router.query_class. eq_str_false Hq. reflexivity. }
    destruct payload; cbn [Router._build_query]; now rewrite Hc.
  - intros Hq d Hd. rewrite _build_query_eq.
    assert (exists cls, Router.query_class query_type = inr cls) as [cls ->].
    { unfold Router.query_class, one_of in *. cbn [existsb] in Hq.
      destruct (Router.eq_str query_type "equity"); [now eexists|].
      destruct (Router.eq_str query_type "fund"); [now eexists|discriminate]. }
    cbn [Router.and_then]. cbv zeta.
    destruct Hd as [-> | ->]; [reflexivity|].
    cbn. now rewrite orb_true_r.
Qed.

Lemma query_validation_witness :
  Router._build_query null_provider (PStr "bond") gt_query
  = inl (Exn "ValueError" "query_type must be 'equity' or 'fund'") /\
  Router._build_query null_provider (PStr "fund") broken_subquery
  = inl (Exn "ValueError" "Query must include operator and operands").
Proof.
  split.
  - apply (proj1 (query_validation null_provider (PStr "bond"))). reflexivity.
  - apply (proj2 (query_validation null_provider (PStr "fund")) eq_refl
             [(KStr "operator", PStr "lt")]).
    right. reflexivity.
Defined.

Lemma kwargs_only_In (names : list string) (d : list (pykey * pyval)) k v :
  In (k, v) (Router.kwargs_only names (PDict d)) <->
  exists name,
    In name names /\ k = KStr name /\ dict_lookup name d = Some v /\ v <> PNone.
Proof.
  induction names as [|n names IH]; cbn [Router.kwargs_only Router.items].
  - split; [intros []|intros (name & [] & _)].
  - cbn [Router.items] in IH.
    assert (Hrest : (exists name, In name names /\ k = KStr name /\
                                  dict_lookup name d = Some v /\ v <> PNone) ->
                    exists name, In name (n :: names) /\ k = KStr name /\
                                 dict_lookup name d = Some v /\ v <> PNone).
    { intros (name & Hin & H). exists name. split; [now right|exact H]. }
    destruct (dict_lookup n d) as [x|] eqn:Hn.
    + destruct (Router.is_none x) eqn:Hx.
      * rewrite IH. split; [exact Hrest|].
        intros (name & [<-|Hin] & Hk & Hl & Hv).
        -- rewrite Hn in Hl. injection Hl as <-. destruct x; try discriminate Hx.
           now contradiction Hv.
        -- now exists name.
      * cbn [In]. rewrite IH. split.
        -- intros [[= <- <-]|H]; [|now apply Hrest].
           exists n. repeat split; [now left|exact Hn|].
           intros ->. discriminate Hx.
        -- intros (name & [<-|Hin] & Hk & Hl & Hv).
           ++ left. rewrite Hn in Hl. injection Hl as <-. now subst k.
           ++ right. now exists name.
    + rewrite IH. split; [exact Hrest|].
      intros (name & [<-|Hin] & Hk & Hl & Hv); [congruence|now exists name].
Qed.

(** X24. The forms of a screen request.  A query that is a dictionary
    needs a [query_type] and is built by [_build_query] before the screen is
    run; a query that is missing or [None] is refused with "query is
    required"; any other query (a string naming a predefined screen, but
    also an empty string or [0]) is passed to the provider as it is. *)
Theorem screen_query_forms {Q} (p : Router.Provider Q) (d : list (pykey * pyval)) :
  (Router.is_dict (arg "query" d) = true ->
   truthy (arg "query_type" d) = false ->
   Router._handle_screen p (PDict d)
   = inl (Exn "ValueError" "query_type is required when query is a dict")) /\
  (Router.is_dict (arg "query" d) = true ->
   truthy (arg "query_type" d) = true ->
   Router._handle_screen p (PDict d)
   = match Router._build_query p (arg "query_type" d) (arg "query" d) with
     | inl e => inl e
     | inr q =>
         Router.yf_screen p (inl q)
           (Router.kwargs_only Router.screen_options (PDict d))
     end) /\
  (arg "query" d = PNone ->
   Router._handle_screen p (PDict d)
   = inl (Exn "ValueError" "query is required")) /\
  (Router.is_dict (arg "query" d) = false ->
   arg "query" d <> PNone ->
   Router._handle_screen p (PDict d)
   = Router.yf_screen p (inr (arg "query" d))
       (Router.kwargs_only Router.screen_options (PDict d))).
Proof.
  unfold Router._handle_screen. cbn [py_get Router.and_then].
  fold (arg "query" d). fold (arg "query_type" d).
  repeat split.
  - intros -> ->. reflexivity.
  - intros -> ->. cbn [negb].
    destruct (Router._build_query p (arg "query_type" d) (arg "query" d));
      reflexivity.
  - intros ->. reflexivity.
  - intros -> Hn. cbn [Router.and_then].
    destruct (arg "query" d); try reflexivity. now contradiction Hn.
Qed.

Lemma screen_query_forms_witness :
  Router._handle_screen no_provider (PDict [(KStr "query", gt_query)])
  = inl (Exn "ValueError" "query_type is required when query is a dict") /\
  Router._handle_screen no_provider (PDict [(KStr "size", PInt 5)])
  = inl (Exn "ValueError" "query is required") /\
  Router._handle_screen no_provider (PDict screen_args)
  = Router.yf_screen no_provider (inr (PStr "day_gainers")) [(KStr "size", PInt 5)].
Proof.
  split; [|split].
  - apply (proj1 (screen_query_forms no_provider [(KStr "query", gt_query)]));
      reflexivity.
  - apply (proj1 (proj2 (proj2 (screen_query_forms no_provider
                                  [(KStr "size", PInt 5)])))).
    reflexivity.
  - apply (proj2 (proj2 (proj2 (screen_query_forms no_provider screen_args)))).
    + reflexivity.
    + discriminate.
Defined.

(** X25. The keyword arguments of a screen are taken from a fixed list:
    an item of the request is forwarded exactly when its key is one of
    [offset], [size], [count], [sortField], [sortAsc], [userId],
    [userIdType] and its value is not [None]; every other argument of the
    request is dropped. *)
Theorem screen_options_only (d : list (pykey * pyval)) (k : pykey) (v : pyval) :
  In (k, v) (Router.kwargs_only Router.screen_options (PDict d)) <->
  exists name,
    In name ["offset"; "size"; "count"; "sortField"; "sortAsc"; "userId";
             "userIdType"] /\
    k = KStr name /\ dict_lookup name d = Some v /\ v <> PNone.
Proof. exact (kwargs_only_In Router.screen_options d k v). Qed.

(** ** The router behind [main] *)

(** X26. With its own router, the bridge reports a missing argument as
    one failure envelope and ends without an exception: for an action that
    insists on an argument which the request's arguments lack (or hold with
    a falsy value; arguments that are absent count as empty), the envelope's
    error is "<argument> is required" and its details are the traceback,
    whatever the provider would do. *)
Theorem missing_argument_reported {Q} (p : Router.Provider Q) (text : string)
    (decoder : string -> pyexn + pyval) (tb : pyexn -> string)
    (d a : list (pykey * pyval)) (action name : string) :
  _read_payload (bridge p text decoder tb) [] = (inr (PDict d), []) ->
  arg "action" d = PStr action ->
  required_argument action = Some name ->
  arg_or "args" (PDict []) d = PDict a ->
  truthy (arg name a) = false ->
  run (bridge p text decoder tb)
  = {| stdout := [refusal_envelope tb (name ++ " is required")];
       escaped := None |}.
Proof.
  intros Hd Ha Hr Hargs Hmiss.
  assert (Ht : truthy (arg "action" d) = true).
  { rewrite Ha. destruct action; [discriminate Hr|reflexivity]. }
  assert (Hdis : dispatched (bridge p text decoder tb) (arg "action" d)
                            (arg_or "args" (PDict []) d)).
  { split; [reflexivity|]. exists d. repeat split; assumption. }
  unfold run. rewrite (main_dispatched _ _ _ Hdis).
  unfold try_except. io_step. cbn [_dispatch bridge].
  rewrite Ha, Hargs, (dispatch_required p action name a Hr Hmiss).
  change (catchable (Router.value_error (name ++ " is required"))) with true.
  cbv iota. rewrite _err_writes. reflexivity.
Qed.

Lemma missing_argument_reported_witness :
  run (bridge no_provider ticker_info_text
         (decoder_at ticker_info_text (inr (PDict ticker_info_no_args)))
         traceback_of)
  = {| stdout := [refusal_envelope traceback_of "ticker is required"];
       escaped := None |}.
Proof.
  apply (missing_argument_reported no_provider ticker_info_text
           (decoder_at ticker_info_text (inr (PDict ticker_info_no_args)))
           traceback_of ticker_info_no_args [] "ticker_info" "ticker");
    reflexivity.
Defined.

(** X27. The answers of the options and search handlers are
    dictionaries of three members, and normalizing such an answer
    normalizes it member by member under the same names: for options the
    frames of calls and puts become tagged records. *)
Theorem three_member_answers {Q} (p : Router.Provider Q)
    (d : list (pykey * pyval)) (result : pyval) :
  (Router._handle_options p (PDict d) = inr result ->
   exists calls puts underlying,
     result = PObject [("calls", calls); ("puts", puts);
                       ("underlying", underlying)] /\
     _serialize_value result
     = PObject [("calls", _serialize_value calls);
                ("puts", _serialize_value puts);
                ("underlying", _serialize_value underlying)]) /\
  (Router._handle_search p (PDict d) = inr result ->
   exists quotes news research,
     result = PObject [("quotes", quotes); ("news", news);
                       ("research", research)] /\
     _serialize_value result
     = PObject [("quotes", _serialize_value quotes);
                ("news", _serialize_value news);
                ("research", _serialize_value research)]).
Proof.
  split.
  - unfold Router._handle_options, Router.required.
    cbn [py_get Router.and_then].
    destruct (negb (truthy _)); [discriminate|]. cbn [Router.and_then].
    destruct (Router.yf_option_chain p _ _ _) as [e|chain]; [discriminate|].
    cbn. destruct (chain "calls") as [e|c]; [discriminate|]. cbn.
    destruct (chain "puts") as [e|pu]; [discriminate|]. cbn.
    destruct (chain "underlying") as [e|u]; [discriminate|]. cbn.
    intros [= <-]. exists c, pu, u. split; reflexivity.
  - unfold Router._handle_search, Router.required.
    cbn [py_get Router.and_then].
    destruct (negb (truthy _)); [discriminate|]. cbn [Router.and_then].
    destruct (Router.yf_Search p _ _) as [e|search]; [discriminate|].
    cbn. destruct (search "quotes") as [e|q]; [discriminate|]. cbn.
    destruct (search "news") as [e|n]; [discriminate|]. cbn.
    destruct (search "research") as [e|r]; [discriminate|]. cbn.
    intros [= <-]. exists q, n, r. split; reflexivity.
Qed.

Lemma three_member_answers_witness :
  exists calls puts underlying,
    chain_answer = PObject [("calls", calls); ("puts", puts);
                            ("underlying", underlying)] /\
    _serialize_value chain_answer
    = PObject [("calls", _serialize_value calls);
               ("puts", _serialize_value puts);
               ("underlying", _serialize_value underlying)].
Proof.
  apply (proj1 (three_member_answers chain_provider
                  [(KStr "ticker", PStr "AAPL")] chain_answer)).
  reflexivity.
Defined.

Lemma screen_options_only_witness :
  In (KStr "size", PInt 5)
     (Router.kwargs_only Router.screen_options (PDict screen_args)).
Proof.
  apply (proj2 (screen_options_only screen_args (KStr "size") (PInt 5))).
  exists "size". repeat split.
  - cbn. tauto.
  - discriminate.
Defined.

Lemma result_never_nan_witness :
  ~ In (PFloat FNaN) [PNone; PFloat (FFinite 10 (-1))].
Proof.
  apply (proj1 (proj2 result_never_nan)
           [PFloat FNaN; PNpGeneric (PFloat (FFinite 10 (-1)))]).
  left. reflexivity.
Defined.
